(** * venv_checker: a shallow embedding of [venv_checker.py]

    The script is a [unittest.TestCase] with a shared [setUp], three test
    methods and an overridden [fail].  It reads the file system, the process
    environment and the exit status of one [pip show] subprocess per
    requirement; it writes a global progress counter, log records and
    printed lines.

    The embedding keeps that shape: what the script reads is a [World]
    (fixed for the duration of one run), what it writes is a [State]
    threaded through a state-and-exception monad, and the [unittest] runner
    is the function [run_test] that turns a raised exception into an
    outcome.  Text is [string]; a character is a code point below 256. *)

From Stdlib Require Import ZArith NArith List String Ascii Bool Lia DecimalString.
From Stdlib Require Import Permutation.
Import ListNotations.

Local Open Scope string_scope.
Local Open Scope list_scope.
Local Open Scope Z_scope.

(** ** Python string operations used by the script *)

(** [str.isspace] on one character, for code points below 256: TAB, LF, VT,
    FF, CR, the separators FS, GS, RS, US, the space, NEL and NBSP. *)
Definition isspace (c : ascii) : bool :=
  let n := N_of_ascii c in
  (((9 <=? n) && (n <=? 13)) || ((28 <=? n) && (n <=? 32))
   || (n =? 133) || (n =? 160))%N.

(** [s.lstrip()] *)
Fixpoint lstrip (s : string) : string :=
  match s with
  | EmptyString => EmptyString
  | String c t => if isspace c then lstrip t else s
  end.

(** [s.rstrip()] *)
Fixpoint rstrip (s : string) : string :=
  match s with
  | EmptyString => EmptyString
  | String c t =>
      match rstrip t with
      | EmptyString => if isspace c then EmptyString else String c EmptyString
      | t' => String c t'
      end
  end.

(** [s.strip()] *)
Definition strip (s : string) : string := rstrip (lstrip s).

(** [s.startswith(p)] *)
Definition startswith (s p : string) : bool := String.prefix p s.

(** [sep.join(l)] *)
Definition join (sep : string) (l : list string) : string := String.concat sep l.

(** Truth value of a [str]: the empty string is false. *)
Definition str_truthy (s : string) : bool :=
  match s with EmptyString => false | String _ _ => true end.

(** Truth value of a list: the empty list is false. *)
Definition list_truthy {A : Type} (l : list A) : bool :=
  match l with [] => false | _ :: _ => true end.

(** [str(n)] for an [int], as an f-string field prints it. *)
Definition str_of_int (n : Z) : string := NilZero.string_of_int (Z.to_int n).

(** ** Global constants *)

Definition RECOMMENDED_VENV_NAME : string := ".venv".
Definition RECOMMENDED_REQUIREMENTS_FILE_NAME : string := "requirements.txt".

Definition GUIDE_IF_DOT_VENV_MISSING : string := "
ERROR: Missing .venv folder - HOW TO FIX
    Create your local project virtual env and activate it.
    Open a terminal in your ROOT PROJECT FOLDER and run each command separately. 

    On Windows, use a PowerShell terminal.
       py -m venv .venv
       .\.venv\Scripts\activate
    On Mac or Linux, use your zsh or bash terminal. 
       python3 -m venv .venv
       source .venv/bin/activate
".

Definition GUIDE_IF_INACTIVE : string := "
ERROR: Local project virtual environment is not active - HOW TO FIX
    Create your local project virtual env and activate it.
    Open a terminal in your ROOT PROJECT FOLDER and run each command separately. 
    
    On Windows, use a PowerShell terminal.
       py -m venv .venv
       .\.venv\Scripts\activate
    On Mac/Linux, use your zsh or bash terminal. 
       python3 -m venv .venv
       source .venv/bin/activate

    If activation still fails, ensure you've installed a current Python version on your machine. 
".

Definition GUIDE_IF_REQ_FILE_MISSING : string := "
ERROR: Local requirements.txt file is missing - HOW TO FIX
    Create a requirements.txt file in your ROOT PROJECT FOLDER.
    
    On Windows, use a PowerShell terminal.
       ni requirements.txt
    On Mac or Linux, use your zsh or bash terminal. 
       touch requirements.txt

    Then, open your Project Folder in VS Code and edit the file. 
    List each required package, one per line, in requirements.txt.
".

Definition GUIDE_IF_REQ_PACKAGE_MISSING : string := "
ERROR: Not all packages listed in requirements.txt are installed - HOW TO FIX
    Install packages in requirements.txt into your active .venv. 
    Open a terminal in your ROOT PROJECT FOLDER and run the command.
    
    On Windows, use a PowerShell terminal.
       py -m pip install --upgrade -r requirements.txt
    On Mac/Linux, use your zsh or bash terminal. 
       python3 -m pip install --upgrade -r requirements.txt
".

(** ** What the script reads *)

(** Result of spawning a child process and waiting for it: it ran and exited
    with a return code, or the spawn itself failed ([OSError]: executable
    missing, permission denied). *)
Inductive spawn_result : Type :=
| Exited (returncode : Z)
| SpawnFailed.

Record World : Type := mkWorld {
  isfile : string -> bool;                    (* os.path.isfile *)
  isdir : string -> bool;                     (* os.path.isdir *)
  getenv : string -> option string;           (* os.getenv *)
  open_lines : string -> option (list string);
    (* open(path, "r") and iteration over the file: the lines, each with its
       line terminator; None when open raises OSError *)
  sys_executable : string;                    (* sys.executable *)
  spawn : list string -> spawn_result         (* running an argv *)
}.

(** ** What the script writes *)

Inductive level : Type := INFO | ERROR.

Record State : Type := mkState {
  progress : Z;                       (* the global [progress] *)
  log : list (level * string);        (* records handed to the root logger, oldest first *)
  stdout : list string;               (* lines written by [print], oldest first *)
  spawned : list (list string)        (* argv of every subprocess launch requested, oldest first *)
}.

(** Module level: [progress = 0]; nothing logged, printed or launched yet. *)
Definition initial_state : State := mkState 0 [] [] [].

(** ** Exceptions and the monad of test code *)

Inductive exn : Type :=
| SkipTest (reason : string)                          (* unittest.SkipTest *)
| CalledProcessError (returncode : Z) (cmd : list string)
| OSError.

Inductive result (A : Type) : Type :=
| Ret (a : A)
| Raise (e : exn).
Arguments Ret {A} a.
Arguments Raise {A} e.

Definition M (A : Type) : Type := State -> result A * State.

Definition ret {A : Type} (a : A) : M A := fun s => (Ret a, s).

Definition raise {A : Type} (e : exn) : M A := fun s => (Raise e, s).

Definition bind {A B : Type} (m : M A) (k : A -> M B) : M B :=
  fun s =>
    match m s with
    | (Ret a, s') => k a s'
    | (Raise e, s') => (Raise e, s')
    end.

(** [try: body  except <the exceptions the handler accepts>: handler].  An
    exception the handler does not accept propagates; what the body wrote
    before raising stays written. *)
Definition try_except {A : Type} (body : M A) (handler : exn -> option (M A)) : M A :=
  fun s =>
    match body s with
    | (Ret a, s') => (Ret a, s')
    | (Raise e, s') =>
        match handler e with
        | Some h => h s'
        | None => (Raise e, s')
        end
    end.

Declare Scope py_scope.
Delimit Scope py_scope with py.
Notation "x <- m ;; k" := (bind m (fun x => k))
  (at level 100, m at next level, right associativity) : py_scope.
Notation "m ;; k" := (bind m (fun _ => k))
  (at level 100, right associativity) : py_scope.
Local Open Scope py_scope.

(** ** Primitive effects *)

Definition get_progress : M Z := fun s => (Ret (progress s), s).

Definition add_progress (n : Z) : M unit :=
  fun s => (Ret tt, mkState (progress s + n) (log s) (stdout s) (spawned s)).

(** The root logger has level INFO and two handlers, so INFO and ERROR
    records are both emitted. *)
Definition emit (l : level) (msg : string) : M unit :=
  fun s => (Ret tt, mkState (progress s) (log s ++ [(l, msg)]) (stdout s) (spawned s)).

Definition logging_info (msg : string) : M unit := emit INFO msg.
Definition logging_error (msg : string) : M unit := emit ERROR msg.

Definition print (line : string) : M unit :=
  fun s => (Ret tt, mkState (progress s) (log s) (stdout s ++ [line]) (spawned s)).

(** [self.skipTest(reason)] raises [unittest.SkipTest]. *)
Definition skipTest {A : Type} (reason : string) : M A := raise (SkipTest reason).

(** [subprocess.check_call(argv, stdout=subprocess.DEVNULL)]: the launch is
    requested; a failed spawn raises [OSError], a non-zero return code raises
    [CalledProcessError], return code 0 returns 0. *)
Definition check_call (w : World) (argv : list string) : M Z :=
  fun s =>
    let s' := mkState (progress s) (log s) (stdout s) (spawned s ++ [argv]) in
    match spawn w argv with
    | SpawnFailed => (Raise OSError, s')
    | Exited rc => if rc =? 0 then (Ret 0, s') else (Raise (CalledProcessError rc argv), s')
    end.

(** [with open(path, "r") as f: [... for line in f ...]]: the lines of the
    file, or [OSError] when it cannot be opened. *)
Definition read_lines (w : World) (path : string) : M (list string) :=
  match open_lines w path with
  | Some ls => ret ls
  | None => raise OSError
  end.

(** ** The script *)

(** The text [log_progress] logs for a value of the counter. *)
Definition progress_message (p : Z) : string :=
  if p =? 33 then
    "Progress: " ++ str_of_int p ++ "% - You're 1/3 done - good start!"
  else if p =? 66 then
    "Progress: " ++ str_of_int p ++ "% - You're 2/3 done - almost there!"
  else if p =? 100 then
    "Progress: " ++ str_of_int p ++ "% - 100% completed - all checks passed. Nice work!"
  else
    "Progress: " ++ str_of_int p ++ "%.".

Definition log_progress : M unit :=
  p <- get_progress ;;
  logging_info (progress_message p).

(** The comprehension of [test_requirements_installed]:
    [[line.strip() for line in f
      if line.strip() and not line.strip().startswith("#")]]. *)
Fixpoint parse_requirements (lines : list string) : list string :=
  match lines with
  | [] => []
  | line :: rest =>
      if str_truthy (strip line) && negb (startswith (strip line) "#")
      then strip line :: parse_requirements rest
      else parse_requirements rest
  end.

(** The argv of the package query. *)
Definition pip_show (w : World) (package : string) : list string :=
  [sys_executable w; "-m"; "pip"; "show"; package].

Section Checker.

Variable w : World.

(** The overriding [fail]: logs and prints, raises nothing. *)
Definition fail (message : string) : M unit :=
  logging_error ("Test Failed: " ++ message) ;;
  print ("Test Failed: " ++ message).

(** [self.requirements_file], assigned first thing in [setUp]. *)
Definition requirements_file : string := RECOMMENDED_REQUIREMENTS_FILE_NAME.

Definition setUp : M unit :=
  if negb (isfile w requirements_file) then
    logging_error (requirements_file ++ " file is missing.") ;;
    skipTest (requirements_file ++ " file is missing.")
  else ret tt.

Definition test_venv_exists : M unit :=
  if negb (isdir w RECOMMENDED_VENV_NAME) then
    logging_error (RECOMMENDED_VENV_NAME ++ " folder not found.") ;;
    fail ("Virtual environment (" ++ RECOMMENDED_VENV_NAME ++ ") not found.")
  else
    add_progress 33 ;;
    logging_info (RECOMMENDED_VENV_NAME ++ " folder exists.") ;;
    log_progress.

(** [os.getenv("VIRTUAL_ENV")] as a truth value: [None] and the empty
    string are false. *)
Definition virtual_env_truthy : bool :=
  match getenv w "VIRTUAL_ENV" with
  | None => false
  | Some v => str_truthy v
  end.

Definition test_venv_is_active : M unit :=
  if negb virtual_env_truthy then
    logging_error "Virtual environment is not active." ;;
    fail ("Virtual environment is not active. Please activate "
          ++ RECOMMENDED_VENV_NAME ++ ".")
  else
    add_progress 33 ;;
    logging_info "Virtual environment is active." ;;
    log_progress.

(** One turn of the [for package in required_packages] loop: the [try]
    block and its single [except subprocess.CalledProcessError] clause.
    The value is [missing_packages] after the turn. *)
Definition query_package (package : string) (missing_packages : list string)
  : M (list string) :=
  try_except
    (check_call w (pip_show w package) ;;
     logging_info ("Required " ++ package ++ " is installed.") ;;
     ret missing_packages)
    (fun e =>
       match e with
       | CalledProcessError _ _ => Some (ret (missing_packages ++ [package]))
       | _ => None
       end).

(** The whole loop, from a given [missing_packages]. *)
Fixpoint query_packages (required_packages missing_packages : list string)
  : M (list string) :=
  match required_packages with
  | [] => ret missing_packages
  | package :: rest =>
      missing_packages' <- query_package package missing_packages ;;
      query_packages rest missing_packages'
  end.

Definition test_requirements_installed : M unit :=
  if negb (isfile w requirements_file) then
    logging_error (requirements_file ++ " is missing.") ;;
    skipTest (requirements_file
              ++ " is missing, cannot verify installed packages.")
  else
    lines <- read_lines w requirements_file ;;
    let required_packages := parse_requirements lines in
    missing_packages <- query_packages required_packages [] ;;
    if list_truthy missing_packages then
      logging_error ("Missing required packages: " ++ join ", " missing_packages) ;;
      fail ("Some packages from " ++ requirements_file
            ++ " are not installed in the virtual environment.")
    else
      add_progress 34 ;;
      logging_info ("All packages in " ++ requirements_file ++ " are installed.") ;;
      log_progress.

(** ** The unittest runner *)

(** The three test methods, in the order the loader runs them (method
    names sorted as strings). *)
Inductive test_name : Type :=
| Test_requirements_installed
| Test_venv_exists
| Test_venv_is_active.

Definition test_method (t : test_name) : M unit :=
  match t with
  | Test_requirements_installed => test_requirements_installed
  | Test_venv_exists => test_venv_exists
  | Test_venv_is_active => test_venv_is_active
  end.

Definition test_names : list test_name :=
  [Test_requirements_installed; Test_venv_exists; Test_venv_is_active].

(** What [TestCase.run] records for one test: success, a skip with its
    reason, or an error for any other exception.  (No method can raise
    [AssertionError], since [fail] is overridden, so there is no
    failure outcome.) *)
Inductive outcome : Type :=
| Success
| Skipped (reason : string)
| Errored (e : exn).

Definition outcome_of_exn (e : exn) : outcome :=
  match e with
  | SkipTest reason => Skipped reason
  | _ => Errored e
  end.

(** [TestCase.run]: [setUp], then the method only when [setUp] returned. *)
Definition run_test (t : test_name) (s : State) : outcome * State :=
  match setUp s with
  | (Raise e, s1) => (outcome_of_exn e, s1)
  | (Ret _, s1) =>
      match test_method t s1 with
      | (Ret _, s2) => (Success, s2)
      | (Raise e, s2) => (outcome_of_exn e, s2)
      end
  end.

(** The suite: every test in turn, whatever the earlier ones recorded. *)
Fixpoint run_suite (ts : list test_name) (s : State)
  : list (test_name * outcome) * State :=
  match ts with
  | [] => ([], s)
  | t :: rest =>
      let (o, s1) := run_test t s in
      let (os, s2) := run_suite rest s1 in
      ((t, o) :: os, s2)
  end.

(** [unittest.main(verbosity=0)] on a fresh process. *)
Definition main : list (test_name * outcome) * State :=
  run_suite test_names initial_state.

End Checker.

(** ** Vocabulary for the statements *)

(** Every character of [s] is white space. *)
Fixpoint all_space (s : string) : bool :=
  match s with
  | EmptyString => true
  | String c t => isspace c && all_space t
  end.

(** [s] has no white space at either end. *)
Definition trimmed (s : string) : Prop := lstrip s = s /\ rstrip s = s.

(** The last character of [s], if any. *)
Fixpoint last_char (s : string) : option ascii :=
  match s with
  | EmptyString => None
  | String c t =>
      match t with
      | EmptyString => Some c
      | String _ _ => last_char t
      end
  end.

(** [s] neither begins nor ends with a white-space character (read off
    the characters of [s], not off the stripping functions). *)
Definition no_outer_space (s : string) : bool :=
  match s with
  | EmptyString => true
  | String c _ => negb (isspace c)
  end
  && match last_char s with
     | None => true
     | Some c => negb (isspace c)
     end.

(** The first character of [s] that is not white space, if any. *)
Fixpoint first_nonspace (s : string) : option ascii :=
  match s with
  | EmptyString => None
  | String c t => if isspace c then first_nonspace t else Some c
  end.

(** A blank line: white space only (the line terminator included). *)
Definition blank_line (line : string) : Prop := all_space line = true.

(** A comment line: optional white space, then the comment marker. *)
Definition comment_line (line : string) : Prop :=
  exists indent rest,
    all_space indent = true /\ line = (indent ++ String "#" rest)%string.

(** The line terminator the file iterator leaves on each line. *)
Definition LF : string := String (ascii_of_nat 10) EmptyString.

(** [l1] is [l2] with some entries removed, order kept. *)
Inductive subsequence {A : Type} : list A -> list A -> Prop :=
| sub_nil : subsequence [] []
| sub_keep : forall x l1 l2, subsequence l1 l2 -> subsequence (x :: l1) (x :: l2)
| sub_drop : forall x l1 l2, subsequence l1 l2 -> subsequence l1 (x :: l2).

(** The query for [package] could be spawned. *)
Definition spawns (w : World) (package : string) : bool :=
  match spawn w (pip_show w package) with
  | Exited _ => true
  | SpawnFailed => false
  end.

(** The query for [package] ran and exited with status 0. *)
Definition installed (w : World) (package : string) : bool :=
  match spawn w (pip_show w package) with
  | Exited rc => rc =? 0
  | SpawnFailed => false
  end.

(** The query for [package] ran and exited with a non-zero status. *)
Definition reported_missing (w : World) (package : string) : bool :=
  match spawn w (pip_show w package) with
  | Exited rc => negb (rc =? 0)
  | SpawnFailed => false
  end.

(** The packages the loop gets to: all of them, or those up to and
    including the first whose query cannot be spawned. *)
Fixpoint queried (w : World) (required_packages : list string) : list string :=
  match required_packages with
  | [] => []
  | package :: rest =>
      if spawns w package then package :: queried w rest else [package]
  end.

(** The record logged for a package found installed. *)
Definition installed_record (package : string) : level * string :=
  (INFO, ("Required " ++ package ++ " is installed.")%string).

(** The line [fail] logs and prints. *)
Definition is_test_failed (line : string) : bool := startswith line "Test Failed: ".

(** Verdicts on one check, run on its own from a fresh process. *)
Definition passes (w : World) (t : test_name) : bool :=
  match run_test w t initial_state with
  | (Success, s) => negb (existsb is_test_failed (stdout s))
  | _ => false
  end.

Definition fails (w : World) (t : test_name) : bool :=
  match run_test w t initial_state with
  | (Success, s) => existsb is_test_failed (stdout s)
  | _ => false
  end.

Definition is_skipped (w : World) (t : test_name) : bool :=
  match run_test w t initial_state with
  | (Skipped _, _) => true
  | _ => false
  end.

(** The weight a check adds to the counter when it passes. *)
Definition weight (t : test_name) : Z :=
  match t with
  | Test_venv_exists => 33
  | Test_venv_is_active => 33
  | Test_requirements_installed => 34
  end.

(** What the comprehension keeps, as a test on the stripped line. *)
Definition is_requirement (stripped : string) : bool :=
  str_truthy stripped && negb (startswith stripped "#").

(** What the loop over [required_packages] evaluates to, from a given
    [missing_packages]: the packages whose query exited non-zero are appended
    in order, unless some query cannot be spawned. *)
Definition loop_result (w : World) (required_packages missing_packages : list string)
  : result (list string) :=
  if forallb (spawns w) required_packages
  then Ret (missing_packages ++ filter (reported_missing w) required_packages)
  else Raise OSError.

(** [s] with the counter advanced and records, printed lines and launches
    appended. *)
Definition extend (s : State) (gain : Z) (records : list (level * string))
    (lines : list string) (launches : list (list string)) : State :=
  mkState (progress s + gain) (log s ++ records) (stdout s ++ lines)
          (spawned s ++ launches).

(** The texts the script builds from its constants. *)
Definition MSG_SETUP_SKIP : string := "requirements.txt file is missing.".
Definition MSG_VENV_NOT_FOUND : string := ".venv folder not found.".
Definition MSG_VENV_FAIL : string := "Test Failed: Virtual environment (.venv) not found.".
Definition MSG_VENV_EXISTS : string := ".venv folder exists.".
Definition MSG_NOT_ACTIVE : string := "Virtual environment is not active.".
Definition MSG_ACTIVE_FAIL : string :=
  "Test Failed: Virtual environment is not active. Please activate .venv.".
Definition MSG_ACTIVE : string := "Virtual environment is active.".
Definition MSG_REQ_FAIL : string :=
  "Test Failed: Some packages from requirements.txt are not installed in the virtual environment.".
Definition MSG_REQ_OK : string := "All packages in requirements.txt are installed.".

(** The record naming the missing packages. *)
Definition missing_record (missing_packages : list string) : level * string :=
  (ERROR, ("Missing required packages: " ++ join ", " missing_packages)%string).

(** What a check adds to the counter: its weight when it passes, nothing
    otherwise. *)
Definition gain (w : World) (t : test_name) : Z :=
  if passes w t then weight t else 0.

(** The levels of a list of log records. *)
Definition levels (records : list (level * string)) : list level := map fst records.

(** [w] with another answer to [os.path.isdir]. *)
Definition with_isdir (w : World) (d : string -> bool) : World :=
  mkWorld (isfile w) d (getenv w) (open_lines w) (sys_executable w) (spawn w).

(** The failure kinds of the checker and where each is detected. *)
Inductive failure_kind : Type :=
| MissingResource
| NotActive
| MissingDependency
| SkippedPrecondition.

(** The condition under which the script takes the failure branch of the
    kind. *)
Definition detects (w : World) (k : failure_kind) : bool :=
  match k with
  | MissingResource =>
      isfile w requirements_file && negb (isdir w RECOMMENDED_VENV_NAME)
  | NotActive =>
      isfile w requirements_file && negb (virtual_env_truthy w)
  | MissingDependency =>
      isfile w requirements_file
      && match open_lines w requirements_file with
         | Some lines =>
             forallb (spawns w) (parse_requirements lines)
             && list_truthy (filter (reported_missing w) (parse_requirements lines))
         | None => false
         end
  | SkippedPrecondition => negb (isfile w requirements_file)
  end.

(** The checks in which the kind is detected: the skip is detected by the
    [setUp] of every check. *)
Definition detecting_checks (k : failure_kind) : list test_name :=
  match k with
  | MissingResource => [Test_venv_exists]
  | NotActive => [Test_venv_is_active]
  | MissingDependency => [Test_requirements_installed]
  | SkippedPrecondition => test_names
  end.

Definition is_error (r : level * string) : bool :=
  match fst r with ERROR => true | INFO => false end.

Definition not_errored (o : outcome) : bool :=
  match o with Errored _ => false | _ => true end.

(** How the runner sees a failure of the kind: a skip for the skipped
    precondition, a completed test that went through [fail] otherwise. *)
Definition recorded (w : World) (k : failure_kind) (t : test_name) : bool :=
  match k with
  | SkippedPrecondition => is_skipped w t
  | _ => fails w t
  end.

(** [needle] occurs in [line]. *)
Definition occurs_in (needle line : string) : bool :=
  match String.index 0 needle line with
  | Some _ => true
  | None => false
  end.

(** Everything the run shows on the console: the log records (the console
    handler writes them to standard output) and the printed lines. *)
Definition console (s : State) : list string := map snd (log s) ++ stdout s.

(** ** Sample worlds *)

(** A project directory, given by what it contains and how the package
    query answers for each package name. *)
Definition project (has_requirements has_venv : bool) (virtual_env : option string)
    (lines : list string) (query : string -> spawn_result) : World :=
  mkWorld
    (fun path => has_requirements && String.eqb path "requirements.txt")
    (fun path => has_venv && String.eqb path ".venv")
    (fun name => if String.eqb name "VIRTUAL_ENV" then virtual_env else None)
    (fun path =>
       if has_requirements && String.eqb path "requirements.txt"
       then Some lines else None)
    "python3"
    (fun argv =>
       match argv with
       | [_; _; _; _; package] => query package
       | _ => SpawnFailed
       end).

(** No requirements.txt; the folder exists and the environment is active. *)
Definition w_absent : World :=
  project false true (Some "/proj/.venv") [] (fun _ => Exited 0).

(** No requirements.txt, no folder, VIRTUAL_ENV unset. *)
Definition w_bare : World :=
  project false false None [] (fun _ => Exited 0).

(** Two requirements; the package query cannot be spawned. *)
Definition w_spawn_fails : World :=
  project true true (Some "/proj/.venv")
    ["requests" ++ LF; "flask" ++ LF]%string (fun _ => SpawnFailed).

(** requirements.txt present; no folder, VIRTUAL_ENV unset. *)
Definition w_no_venv : World :=
  project true false None ["requests" ++ LF]%string (fun _ => Exited 0).

(** requests is installed, flask is not. *)
Definition w_mixed : World :=
  project true true (Some "/proj/.venv")
    ["requests" ++ LF; "flask" ++ LF]%string
    (fun package => if String.eqb package "requests" then Exited 0 else Exited 1).

(** requirements.txt holds comments and blank lines only. *)
Definition w_comments : World :=
  project true true (Some "/proj/.venv")
    ["# pinned later" ++ LF; LF; "   # indented comment" ++ LF; "  " ++ LF]%string
    (fun _ => Exited 1).

(** ** Vocabulary for the further properties *)

(** The runner recorded an error for the check, run on its own. *)
Definition errors (w : World) (t : test_name) : bool :=
  match run_test w t initial_state with
  | (Errored _, _) => true
  | _ => false
  end.

(** [TestResult.wasSuccessful()]: no error was recorded (no failure can be,
    since no method raises [AssertionError]); skips do not count. *)
Definition wasSuccessful (report : list (test_name * outcome)) : bool :=
  forallb (fun r => match snd r with Errored _ => false | _ => true end) report.

(** The script run from the command line without arguments.  Importing
    the module builds [logging.FileHandler("venv_checker.log")], which
    opens the log file for appending and raises [OSError] when it cannot
    ([log_file_opens] false): the process then ends with status 1 before
    any check is run.  Otherwise [unittest.main] runs the suite and ends
    the process with status 0 when the result was successful and with
    status 1 when it was not. *)
Definition run_script (log_file_opens : bool) (w : World)
  : option (list (test_name * outcome) * State) * Z :=
  if log_file_opens
  then (Some (main w), if wasSuccessful (fst (main w)) then 0 else 1)
  else (None, 1).

(** The status the process ends with. *)
Definition exit_status (log_file_opens : bool) (w : World) : Z :=
  snd (run_script log_file_opens w).

(** [w] with everything but the file-system answers replaced. *)
Definition with_environment (w : World) (env : string -> option string)
    (content : string -> option (list string)) (exe : string)
    (run : list string -> spawn_result) : World :=
  mkWorld (isfile w) (isdir w) env content exe run.

(** The lines [log_progress] writes. *)
Definition is_progress (msg : string) : bool := startswith msg "Progress: ".

Definition progress_lines (s : State) : list string :=
  filter is_progress (map snd (log s)).

(** The messages of the log records written by [fail]. *)
Definition test_failed_records (s : State) : list string :=
  map snd (filter (fun r => is_test_failed (snd r)) (log s)).

(** The progress line of a check that starts with the counter at [before]:
    one line for the new value when the check passes, none otherwise. *)
Definition progress_line_of (w : World) (t : test_name) (before : Z) : list string :=
  if passes w t then [progress_message (before + weight t)] else [].

(** Everything is in place: two requirements, both installed. *)
Definition w_ok : World :=
  project true true (Some "/proj/.venv")
    ["requests" ++ LF; "flask>=2.0" ++ LF]%string (fun _ => Exited 0).

(** The text of the guard inside [test_requirements_installed]. *)
Definition MSG_METHOD_SKIP : string := "requirements.txt is missing.".

(** A record with the given message is in the log. *)
Definition logged (msg : string) (s : State) : bool :=
  existsb (fun r => String.eqb (snd r) msg) (log s).

(** Every record that carries a "Test Failed" message is an ERROR record. *)
Definition test_failed_at_error (records : list (level * string)) : bool :=
  forallb (fun r => implb (is_test_failed (snd r)) (is_error r)) records.

(** Two descriptions of the same state, up to [+ 0] and [++ []]. *)
Ltac same_state :=
  unfold extend; cbn [progress log stdout spawned];
  rewrite ?Z.add_0_r, ?app_nil_r, <- ?app_assoc; reflexivity.

(** * Properties *)

(** ** Stripping *)

Lemma lstrip_all_space (s : string) : all_space s = true -> lstrip s = EmptyString.
Proof.
  induction s as [|c t IH]; simpl; [reflexivity|].
  intros H. apply andb_true_iff in H as [Hc Ht]. rewrite Hc. auto.
Qed.

Lemma lstrip_indent (indent s : string) (c : ascii) :
  all_space indent = true -> isspace c = false ->
  lstrip (indent ++ String c s) = String c s.
Proof.
  intros Hi Hc. induction indent as [|d t IH]; simpl in *.
  - now rewrite Hc.
  - apply andb_true_iff in Hi as [Hd Ht]. rewrite Hd. auto.
Qed.

Lemma lstrip_head (s : string) :
  lstrip s = EmptyString \/
  exists c t, lstrip s = String c t /\ isspace c = false.
Proof.
  induction s as [|c t IH]; simpl; [now left|].
  destruct (isspace c) eqn:Hc; [exact IH|].
  right. now exists c, t.
Qed.

Lemma rstrip_cons_nonspace (c : ascii) (t : string) :
  isspace c = false -> rstrip (String c t) = String c (rstrip t).
Proof.
  intros Hc. simpl. destruct (rstrip t); [now rewrite Hc | reflexivity].
Qed.

Lemma lstrip_decompose (s : string) :
  exists ws, all_space ws = true /\ s = (ws ++ lstrip s)%string.
Proof.
  induction s as [|c t [ws [Hws Heq]]]; simpl.
  - now exists EmptyString.
  - destruct (isspace c) eqn:Hc.
    + exists (String c ws). simpl. rewrite Hc, Hws. split; [reflexivity|].
      now rewrite <- Heq.
    + now exists EmptyString.
Qed.

Lemma rstrip_decompose (s : string) :
  exists ws, all_space ws = true /\ s = (rstrip s ++ ws)%string.
Proof.
  induction s as [|c t [ws [Hws Heq]]]; simpl.
  - now exists EmptyString.
  - destruct (rstrip t) as [|d t'] eqn:Hr.
    + destruct (isspace c) eqn:Hc.
      * exists (String c ws). simpl in *. rewrite Hc, Hws. split; [reflexivity|].
        now rewrite <- Heq.
      * exists ws. simpl in *. split; [assumption|]. now rewrite <- Heq.
    + exists ws. split; [assumption|]. simpl in *. now rewrite <- Heq.
Qed.

Lemma rstrip_cons (c : ascii) (t : string) :
  rstrip (String c t) =
  match rstrip t with
  | EmptyString => if isspace c then EmptyString else String c EmptyString
  | String d t' => String c (String d t')
  end.
Proof. reflexivity. Qed.

Lemma rstrip_idempotent (s : string) : rstrip (rstrip s) = rstrip s.
Proof.
  induction s as [|c t IH]; [reflexivity|].
  rewrite rstrip_cons. destruct (rstrip t) as [|d t'] eqn:Hr.
  - destruct (isspace c) eqn:Hc; simpl; [reflexivity | now rewrite Hc].
  - rewrite rstrip_cons, IH. reflexivity.
Qed.

Lemma strip_trimmed (s : string) : trimmed (strip s).
Proof.
  unfold trimmed, strip. split; [|apply rstrip_idempotent].
  destruct (lstrip_head s) as [-> | (c & t & -> & Hc)]; [reflexivity|].
  rewrite rstrip_cons_nonspace by assumption. simpl. now rewrite Hc.
Qed.

Lemma strip_decompose (s : string) :
  exists ws1 ws2,
    all_space ws1 = true /\ all_space ws2 = true /\
    s = (ws1 ++ strip s ++ ws2)%string.
Proof.
  destruct (lstrip_decompose s) as [ws1 [H1 E1]].
  destruct (rstrip_decompose (lstrip s)) as [ws2 [H2 E2]].
  exists ws1, ws2. repeat split; try assumption.
  unfold strip. now rewrite <- E2.
Qed.

Lemma strip_blank (line : string) : blank_line line -> strip line = EmptyString.
Proof.
  unfold blank_line, strip. intros H. now rewrite lstrip_all_space.
Qed.

Lemma isspace_hash : isspace "#" = false.
Proof. reflexivity. Qed.

Lemma strip_comment (line : string) :
  comment_line line -> startswith (strip line) "#" = true.
Proof.
  intros (indent & rest & Hi & ->). unfold strip.
  rewrite lstrip_indent by (assumption || apply isspace_hash).
  rewrite rstrip_cons_nonspace by apply isspace_hash.
  unfold startswith. cbn [String.prefix].
  destruct (ascii_dec "#" "#") as [_|Hne]; [|now elim Hne].
  now destruct (rstrip rest).
Qed.

Lemma last_char_rstrip (s : string) :
  match last_char (rstrip s) with
  | None => true
  | Some c => negb (isspace c)
  end = true.
Proof.
  induction s as [|c t IH]; [reflexivity|].
  rewrite rstrip_cons. destruct (rstrip t) as [|d t'] eqn:Hr.
  - destruct (isspace c) eqn:Hc; [reflexivity|]. cbn. now rewrite Hc.
  - exact IH.
Qed.

Lemma strip_no_outer_space (s : string) : no_outer_space (strip s) = true.
Proof.
  unfold no_outer_space. apply andb_true_iff. split; [|apply last_char_rstrip].
  unfold strip.
  destruct (lstrip_head s) as [-> | (c & t & -> & Hc)]; [reflexivity|].
  rewrite rstrip_cons_nonspace by assumption. now rewrite Hc.
Qed.

Lemma lstrip_first_nonspace (s : string) :
  match first_nonspace s with
  | None => lstrip s = EmptyString
  | Some c => exists t, lstrip s = String c t /\ isspace c = false
  end.
Proof.
  induction s as [|c t IH]; [reflexivity|]. cbn [first_nonspace lstrip].
  destruct (isspace c) eqn:Hc; [exact IH|]. now exists t.
Qed.

Lemma is_requirement_first_nonspace (line : string) :
  is_requirement (strip line)
  = match first_nonspace line with
    | None => false
    | Some c => negb (Ascii.eqb c "#")
    end.
Proof.
  unfold strip. pose proof (lstrip_first_nonspace line) as H.
  destruct (first_nonspace line) as [c|].
  - destruct H as (t & -> & Hc). rewrite rstrip_cons_nonspace by assumption.
    unfold is_requirement, startswith. cbn [str_truthy andb String.prefix].
    destruct (ascii_dec "#" c) as [<-|Hne].
    + now destruct (rstrip t).
    + symmetry. apply negb_true_iff, Ascii.eqb_neq. congruence.
  - now rewrite H.
Qed.

(** ** Parsing the requirements file *)

Lemma parse_requirements_filter (lines : list string) :
  parse_requirements lines = filter is_requirement (map strip lines).
Proof.
  induction lines as [|line rest IH]; simpl; [reflexivity|].
  unfold is_requirement at 1.
  destruct (str_truthy (strip line) && negb (startswith (strip line) "#"));
    now rewrite IH.
Qed.

Lemma filter_subsequence {A : Type} (f : A -> bool) (l : list A) :
  subsequence (filter f l) l.
Proof.
  induction l as [|x l IH]; simpl; [constructor|].
  destruct (f x); now constructor.
Qed.

Lemma str_truthy_nonempty (s : string) : str_truthy s = true -> s <> EmptyString.
Proof. destruct s; [discriminate | congruence]. Qed.

(** C6.  Parsing strips every line, drops the lines whose stripped form is
    empty or starts with the comment marker, and keeps the others in file
    order: the result is the stripped lines filtered by that test, hence a
    subsequence of the stripped lines.  Stripping is pinned down on the
    characters of the line: every line is its stripped form between two
    runs of white space, the stripped form neither begins nor ends with a
    white-space character, and a line is kept exactly when its first
    character that is not white space exists and is not the comment
    marker.  Every entry of the result is trimmed at both ends, non-empty
    and not a comment.  On the lines "requests", "# comment", "", "flask"
    (with or without their line terminators) the result is exactly
    "requests", "flask", and so it is when the lines are indented, padded
    or end in CR LF. *)
Theorem parse_requirements_strips_and_drops (lines : list string) :
  parse_requirements lines = filter is_requirement (map strip lines)
  /\ subsequence (parse_requirements lines) (map strip lines)
  /\ Forall (fun line =>
               (exists ws1 ws2,
                   all_space ws1 = true /\ all_space ws2 = true
                   /\ line = (ws1 ++ strip line ++ ws2)%string)
               /\ no_outer_space (strip line) = true
               /\ is_requirement (strip line)
                  = match first_nonspace line with
                    | None => false
                    | Some c => negb (Ascii.eqb c "#")
                    end)
            lines
  /\ Forall (fun p => trimmed p /\ no_outer_space p = true
                      /\ p <> EmptyString /\ startswith p "#" = false)
            (parse_requirements lines)
  /\ parse_requirements ["requests"; "# comment"; ""; "flask"]
     = ["requests"; "flask"]
  /\ parse_requirements
       ["requests" ++ LF; "# comment" ++ LF; LF; "flask" ++ LF]%string
     = ["requests"; "flask"]
  /\ parse_requirements
       ["  requests  " ++ LF; "   # indented comment" ++ LF;
        String (ascii_of_nat 9) LF;
        String (ascii_of_nat 9) "flask" ++ String (ascii_of_nat 13) LF]%string
     = ["requests"; "flask"].
Proof.
  split; [apply parse_requirements_filter|].
  split; [rewrite parse_requirements_filter; apply filter_subsequence|].
  split; [|split; [|repeat split]].
  - apply Forall_forall. intros line _.
    split; [apply strip_decompose|].
    split; [apply strip_no_outer_space | apply is_requirement_first_nonspace].
  - rewrite parse_requirements_filter. apply Forall_forall. intros p Hp.
    apply filter_In in Hp as [Hin Hreq].
    apply in_map_iff in Hin as [line [<- _]].
    unfold is_requirement in Hreq. apply andb_true_iff in Hreq as [Ht Hc].
    split; [apply strip_trimmed|].
    split; [apply strip_no_outer_space|].
    split; [now apply str_truthy_nonempty|].
    now apply negb_true_iff in Hc.
Qed.

(** ** Symbolic evaluation of the checks *)

Section Evaluation.

Variable w : World.

Lemma extend_nothing (s : State) : extend s 0 [] [] [] = s.
Proof.
  destruct s as [p l o sp]. unfold extend. simpl.
  now rewrite Z.add_0_r, !app_nil_r.
Qed.

Lemma query_packages_eval (required_packages missing_packages : list string)
    (s : State) :
  query_packages w required_packages missing_packages s =
  (loop_result w required_packages missing_packages,
   mkState (progress s)
     (log s ++ map installed_record
                   (filter (installed w) (queried w required_packages)))
     (stdout s)
     (spawned s ++ map (pip_show w) (queried w required_packages))).
Proof.
  revert missing_packages s.
  induction required_packages as [|package rest IH]; intros missing_packages s.
  - unfold loop_result. simpl. unfold ret. destruct s; simpl.
    now rewrite !app_nil_r.
  - cbn [query_packages]. unfold bind at 1.
    unfold query_package, try_except, bind, check_call, logging_info, emit, ret.
    unfold loop_result, spawns, installed, reported_missing.
    cbn [forallb queried filter]. unfold spawns, installed.
    destruct (spawn w (pip_show w package)) as [rc|] eqn:Hsp.
    + destruct (rc =? 0) eqn:Hrc.
      * rewrite IH. unfold loop_result, spawns, reported_missing, installed.
        cbn [andb negb map filter progress log stdout spawned]. rewrite Hsp, Hrc.
        cbn [map]. rewrite <- !app_assoc. reflexivity.
      * rewrite IH. unfold loop_result, spawns, reported_missing, installed.
        cbn [andb negb map filter progress log stdout spawned]. rewrite Hsp, Hrc.
        cbn [map]. rewrite <- !app_assoc. reflexivity.
    + cbn [andb filter map]. rewrite Hsp. cbn [map]. now rewrite app_nil_r.
Qed.

Lemma setUp_present (s : State) :
  isfile w requirements_file = true -> setUp w s = (Ret tt, s).
Proof. intros H. unfold setUp. now rewrite H. Qed.

Lemma run_test_absent (t : test_name) (s : State) :
  isfile w requirements_file = false ->
  run_test w t s = (Skipped MSG_SETUP_SKIP, extend s 0 [(ERROR, MSG_SETUP_SKIP)] [] []).
Proof.
  intros H. unfold run_test, setUp. rewrite H. destruct s. cbn. same_state.
Qed.

Lemma run_test_venv_exists (s : State) :
  isfile w requirements_file = true ->
  run_test w Test_venv_exists s =
  if isdir w RECOMMENDED_VENV_NAME
  then (Success,
        extend s 33 [(INFO, MSG_VENV_EXISTS);
                     (INFO, progress_message (progress s + 33))] [] [])
  else (Success,
        extend s 0 [(ERROR, MSG_VENV_NOT_FOUND); (ERROR, MSG_VENV_FAIL)]
               [MSG_VENV_FAIL] []).
Proof.
  intros H. unfold run_test. rewrite setUp_present by assumption.
  cbn [test_method]. unfold test_venv_exists.
  destruct (isdir w RECOMMENDED_VENV_NAME); destruct s; cbn; same_state.
Qed.

Lemma run_test_venv_is_active (s : State) :
  isfile w requirements_file = true ->
  run_test w Test_venv_is_active s =
  if virtual_env_truthy w
  then (Success,
        extend s 33 [(INFO, MSG_ACTIVE);
                     (INFO, progress_message (progress s + 33))] [] [])
  else (Success,
        extend s 0 [(ERROR, MSG_NOT_ACTIVE); (ERROR, MSG_ACTIVE_FAIL)]
               [MSG_ACTIVE_FAIL] []).
Proof.
  intros H. unfold run_test. rewrite setUp_present by assumption.
  cbn [test_method]. unfold test_venv_is_active.
  destruct (virtual_env_truthy w); destruct s; cbn; same_state.
Qed.

Lemma run_test_requirements_installed (s : State) :
  isfile w requirements_file = true ->
  run_test w Test_requirements_installed s =
  match open_lines w requirements_file with
  | None => (Errored OSError, s)
  | Some lines =>
      let required_packages := parse_requirements lines in
      let found :=
        map installed_record
            (filter (installed w) (queried w required_packages)) in
      let launches := map (pip_show w) (queried w required_packages) in
      match loop_result w required_packages [] with
      | Raise e => (outcome_of_exn e, extend s 0 found [] launches)
      | Ret missing_packages =>
          if list_truthy missing_packages
          then (Success,
                extend s 0
                  (found ++ [missing_record missing_packages; (ERROR, MSG_REQ_FAIL)])
                  [MSG_REQ_FAIL] launches)
          else (Success,
                extend s 34
                  (found ++ [(INFO, MSG_REQ_OK);
                             (INFO, progress_message (progress s + 34))])
                  [] launches)
      end
  end.
Proof.
  intros H. unfold run_test. rewrite setUp_present by assumption.
  cbn [test_method]. unfold test_requirements_installed. rewrite H.
  cbn [negb]. unfold read_lines.
  destruct (open_lines w requirements_file) as [lines|]; [|reflexivity].
  unfold bind at 1. unfold ret at 1. unfold bind at 1.
  rewrite query_packages_eval.
  destruct (loop_result w (parse_requirements lines) []) as [missing|e].
  - destruct missing as [|m ms]; destruct s; cbn; same_state.
  - destruct s; cbn. destruct e; cbn; same_state.
Qed.

End Evaluation.

(** ** Verdicts in terms of what the script reads *)

Section Verdicts.

Variable w : World.

Lemma installed_spawns (package : string) :
  installed w package = true -> spawns w package = true.
Proof. unfold installed, spawns. now destruct (spawn w (pip_show w package)). Qed.

Lemma installed_not_missing (package : string) :
  installed w package = true -> reported_missing w package = false.
Proof.
  unfold installed, reported_missing.
  destruct (spawn w (pip_show w package)); [intros ->; reflexivity | discriminate].
Qed.


Lemma spawns_cases (package : string) :
  spawns w package = true ->
  reported_missing w package = negb (installed w package).
Proof.
  unfold installed, reported_missing, spawns.
  now destruct (spawn w (pip_show w package)).
Qed.

Lemma queried_all (required_packages : list string) :
  forallb (spawns w) required_packages = true ->
  queried w required_packages = required_packages.
Proof.
  induction required_packages as [|p rest IH]; simpl; [reflexivity|].
  intros [Hp Hrest]%andb_true_iff. rewrite Hp. now rewrite IH.
Qed.

Lemma none_missing_all_installed (required_packages : list string) :
  forallb (spawns w) required_packages = true ->
  list_truthy (filter (reported_missing w) required_packages)
  = negb (forallb (installed w) required_packages).
Proof.
  induction required_packages as [|p rest IH]; simpl; [reflexivity|].
  intros [Hp Hrest]%andb_true_iff. rewrite (spawns_cases p Hp).
  destruct (installed w p); simpl; [now apply IH | reflexivity].
Qed.

Lemma all_installed_all_spawn (required_packages : list string) :
  forallb (installed w) required_packages = true ->
  forallb (spawns w) required_packages = true.
Proof.
  rewrite !forallb_forall. intros H p Hp. apply installed_spawns. now apply H.
Qed.

Lemma not_spawn_not_installed (required_packages : list string) :
  forallb (spawns w) required_packages = false ->
  forallb (installed w) required_packages = false.
Proof.
  intros H. destruct (forallb (installed w) required_packages) eqn:E; [|reflexivity].
  apply all_installed_all_spawn in E. congruence.
Qed.

Lemma passes_venv_exists :
  passes w Test_venv_exists
  = isfile w requirements_file && isdir w RECOMMENDED_VENV_NAME.
Proof.
  unfold passes. destruct (isfile w requirements_file) eqn:Hf.
  - rewrite run_test_venv_exists by assumption.
    now destruct (isdir w RECOMMENDED_VENV_NAME).
  - now rewrite run_test_absent.
Qed.

Lemma passes_venv_is_active :
  passes w Test_venv_is_active
  = isfile w requirements_file && virtual_env_truthy w.
Proof.
  unfold passes. destruct (isfile w requirements_file) eqn:Hf.
  - rewrite run_test_venv_is_active by assumption.
    now destruct (virtual_env_truthy w).
  - now rewrite run_test_absent.
Qed.

Lemma passes_requirements_installed :
  passes w Test_requirements_installed
  = isfile w requirements_file
    && match open_lines w requirements_file with
       | Some lines => forallb (installed w) (parse_requirements lines)
       | None => false
       end.
Proof.
  unfold passes. destruct (isfile w requirements_file) eqn:Hf.
  - rewrite run_test_requirements_installed by assumption.
    destruct (open_lines w requirements_file) as [lines|]; [|reflexivity].
    cbv zeta. unfold loop_result.
    destruct (forallb (spawns w) (parse_requirements lines)) eqn:Hs.
    + cbn [app]. rewrite none_missing_all_installed by assumption.
      now destruct (forallb (installed w) (parse_requirements lines)).
    + cbn. now rewrite not_spawn_not_installed.
  - now rewrite run_test_absent.
Qed.

End Verdicts.

(** ** Each check is independent of the state it starts from *)

Section Frame.

Variable w : World.

(** The outcome, the gain, the printed lines and the launches of a check do
    not depend on what ran before it; its log records keep their levels. *)
Lemma run_test_frame (t : test_name) (s : State) :
  fst (run_test w t s) = fst (run_test w t initial_state)
  /\ progress (snd (run_test w t s))
     = progress s + progress (snd (run_test w t initial_state))
  /\ stdout (snd (run_test w t s))
     = stdout s ++ stdout (snd (run_test w t initial_state))
  /\ spawned (snd (run_test w t s))
     = spawned s ++ spawned (snd (run_test w t initial_state))
  /\ levels (log (snd (run_test w t s)))
     = levels (log s) ++ levels (log (snd (run_test w t initial_state))).
Proof.
  unfold levels.
  destruct (isfile w requirements_file) eqn:Hf.
  - destruct t.
    + rewrite !run_test_requirements_installed by assumption.
      destruct (open_lines w requirements_file) as [lines|].
      * cbv zeta.
        destruct (loop_result w (parse_requirements lines) []) as [m|e];
          [destruct (list_truthy m)|];
          cbn [fst snd extend progress log stdout spawned initial_state app];
          rewrite ?map_app; cbn [map fst]; repeat split; try reflexivity; lia.
      * cbn. rewrite !app_nil_r. repeat split; try reflexivity; lia.
    + rewrite !run_test_venv_exists by assumption.
      destruct (isdir w RECOMMENDED_VENV_NAME);
        cbn [fst snd extend progress log stdout spawned initial_state app];
        rewrite ?map_app; cbn [map fst]; repeat split; try reflexivity; lia.
    + rewrite !run_test_venv_is_active by assumption.
      destruct (virtual_env_truthy w);
        cbn [fst snd extend progress log stdout spawned initial_state app];
        rewrite ?map_app; cbn [map fst]; repeat split; try reflexivity; lia.
  - rewrite !run_test_absent by assumption.
    cbn [fst snd extend progress log stdout spawned initial_state app].
    rewrite ?map_app. cbn [map fst]. repeat split; try reflexivity; lia.
Qed.

(** Run alone, a check leaves the counter at its gain. *)
Lemma run_test_gain (t : test_name) :
  progress (snd (run_test w t initial_state)) = gain w t.
Proof.
  unfold gain, passes.
  destruct (isfile w requirements_file) eqn:Hf.
  - destruct t.
    + rewrite run_test_requirements_installed by assumption.
      destruct (open_lines w requirements_file) as [lines|]; [|reflexivity].
      cbv zeta.
      destruct (loop_result w (parse_requirements lines) []) as [m|e].
      * now destruct (list_truthy m).
      * now destruct e.
    + rewrite run_test_venv_exists by assumption.
      now destruct (isdir w RECOMMENDED_VENV_NAME).
    + rewrite run_test_venv_is_active by assumption.
      now destruct (virtual_env_truthy w).
  - now rewrite run_test_absent.
Qed.

Lemma run_test_progress (t : test_name) (s : State) :
  progress (snd (run_test w t s)) = progress s + gain w t.
Proof.
  destruct (run_test_frame t s) as (_ & -> & _). now rewrite run_test_gain.
Qed.

Lemma run_suite_cons (t : test_name) (ts : list test_name) (s : State) :
  run_suite w (t :: ts) s =
  ((t, fst (run_test w t s)) :: fst (run_suite w ts (snd (run_test w t s))),
   snd (run_suite w ts (snd (run_test w t s)))).
Proof.
  cbn [run_suite]. destruct (run_test w t s) as [o s1].
  cbn [fst snd]. now destruct (run_suite w ts s1).
Qed.

Lemma run_suite_progress (ts : list test_name) (s : State) :
  progress (snd (run_suite w ts s))
  = progress s + fold_right Z.add 0 (map (gain w) ts).
Proof.
  revert s. induction ts as [|t ts IH]; intros s.
  - cbn. lia.
  - rewrite run_suite_cons. cbn [snd map fold_right].
    rewrite IH, run_test_progress. lia.
Qed.

Lemma run_suite_outcomes (ts : list test_name) (s : State) :
  fst (run_suite w ts s)
  = map (fun t => (t, fst (run_test w t initial_state))) ts.
Proof.
  revert s. induction ts as [|t ts IH]; intros s; [reflexivity|].
  rewrite run_suite_cons. cbn [fst map]. rewrite IH.
  now destruct (run_test_frame t s) as (-> & _).
Qed.

End Frame.

(** C5.  The counter a run ends with is the sum of the gains of the three
    checks (33 for the existence check, 33 for the activation check, 34 for
    the dependency check, nothing for a check that does not pass), and it
    is 100 exactly when all three checks pass. *)
Theorem progress_is_100_iff_all_pass (w : World) :
  progress (snd (main w))
  = gain w Test_venv_exists + gain w Test_venv_is_active
    + gain w Test_requirements_installed
  /\ weight Test_venv_exists = 33
  /\ weight Test_venv_is_active = 33
  /\ weight Test_requirements_installed = 34
  /\ (progress (snd (main w)) =? 100)
     = passes w Test_venv_exists && passes w Test_venv_is_active
       && passes w Test_requirements_installed.
Proof.
  assert (E : progress (snd (main w))
              = gain w Test_venv_exists + gain w Test_venv_is_active
                + gain w Test_requirements_installed).
  { unfold main, test_names. rewrite run_suite_progress. cbn. lia. }
  split; [exact E|]. repeat (split; [reflexivity|]).
  rewrite E. unfold gain.
  destruct (passes w Test_venv_exists), (passes w Test_venv_is_active),
    (passes w Test_requirements_installed); reflexivity.
Qed.

(** ** A missing requirements file *)

Lemma main_absent (w : World) :
  isfile w requirements_file = false ->
  main w =
  ([(Test_requirements_installed, Skipped MSG_SETUP_SKIP);
    (Test_venv_exists, Skipped MSG_SETUP_SKIP);
    (Test_venv_is_active, Skipped MSG_SETUP_SKIP)],
   mkState 0 [(ERROR, MSG_SETUP_SKIP); (ERROR, MSG_SETUP_SKIP); (ERROR, MSG_SETUP_SKIP)]
           [] []).
Proof.
  intros H. unfold main, test_names. cbn [run_suite].
  rewrite !run_test_absent by assumption. reflexivity.
Qed.

Lemma verdicts_absent (w : World) (t : test_name) :
  isfile w requirements_file = false ->
  is_skipped w t = true /\ fails w t = false /\ passes w t = false.
Proof.
  intros H. unfold is_skipped, fails, passes.
  rewrite run_test_absent by assumption. now repeat split.
Qed.

(** C3.  When requirements.txt is absent the dependency check is recorded
    as skipped, which is neither a pass nor a failure, and the whole run
    requests no subprocess.  The guard inside the method itself also skips
    without launching anything. *)
Theorem requirements_absent_skips_dependency_check (w : World) :
  isfile w requirements_file = false ->
  is_skipped w Test_requirements_installed = true
  /\ fails w Test_requirements_installed = false
  /\ passes w Test_requirements_installed = false
  /\ In (Test_requirements_installed, Skipped MSG_SETUP_SKIP) (fst (main w))
  /\ spawned (snd (main w)) = []
  /\ forall s,
       test_requirements_installed w s
       = (Raise (SkipTest "requirements.txt is missing, cannot verify installed packages."),
          extend s 0 [(ERROR, "requirements.txt is missing.")] [] []).
Proof.
  intros H.
  destruct (verdicts_absent w Test_requirements_installed H) as (Hs & Hf & Hp).
  repeat (split; [assumption|]).
  rewrite main_absent by assumption.
  split; [now left|]. split; [reflexivity|].
  intros s. unfold test_requirements_installed. rewrite H.
  destruct s. cbn. unfold extend. cbn.
  now rewrite Z.add_0_r, !app_nil_r.
Qed.

Lemma requirements_absent_skips_dependency_check_witness :
  isfile w_absent requirements_file = false
  /\ is_skipped w_absent Test_requirements_installed = true
  /\ spawned (snd (main w_absent)) = [].
Proof.
  split; [reflexivity|].
  pose proof (requirements_absent_skips_dependency_check w_absent eq_refl)
    as (Hs & _ & _ & _ & Hn & _).
  split; assumption.
Defined.

(** C10.  When requirements.txt is absent the shared [setUp] skips every
    check: each of the three is recorded as skipped, from any state its
    run only logs the one error record of [setUp] (the method body adds
    nothing), and the run ends with the counter at 0, three such records,
    nothing printed and nothing launched. *)
Theorem requirements_absent_skips_every_check (w : World) :
  isfile w requirements_file = false ->
  (forall t s,
      run_test w t s
      = (Skipped MSG_SETUP_SKIP, extend s 0 [(ERROR, MSG_SETUP_SKIP)] [] []))
  /\ main w =
     ([(Test_requirements_installed, Skipped MSG_SETUP_SKIP);
       (Test_venv_exists, Skipped MSG_SETUP_SKIP);
       (Test_venv_is_active, Skipped MSG_SETUP_SKIP)],
      mkState 0 [(ERROR, MSG_SETUP_SKIP); (ERROR, MSG_SETUP_SKIP);
                 (ERROR, MSG_SETUP_SKIP)] [] [])
  /\ gain w Test_venv_exists = 0
  /\ gain w Test_venv_is_active = 0
  /\ gain w Test_requirements_installed = 0.
Proof.
  intros H. split; [intros t s; now apply run_test_absent|].
  split; [now apply main_absent|].
  unfold gain.
  destruct (verdicts_absent w Test_venv_exists H) as (_ & _ & ->).
  destruct (verdicts_absent w Test_venv_is_active H) as (_ & _ & ->).
  destruct (verdicts_absent w Test_requirements_installed H) as (_ & _ & ->).
  now repeat split.
Qed.

Lemma requirements_absent_skips_every_check_witness :
  isfile w_absent requirements_file = false
  /\ isdir w_absent RECOMMENDED_VENV_NAME = true
  /\ virtual_env_truthy w_absent = true
  /\ progress (snd (main w_absent)) = 0
  /\ map snd (fst (main w_absent))
     = [Skipped MSG_SETUP_SKIP; Skipped MSG_SETUP_SKIP; Skipped MSG_SETUP_SKIP].
Proof.
  repeat (split; [reflexivity|]).
  pose proof (requirements_absent_skips_every_check w_absent eq_refl)
    as (_ & Hm & _).
  rewrite Hm. split; reflexivity.
Defined.

(** ** The activation check *)

(** C7, as stated, fails where requirements.txt is absent: with VIRTUAL_ENV
    set and non-empty the activation check does not pass, and with
    VIRTUAL_ENV unset it does not fail; in both cases it is skipped. *)
Lemma activation_check_skipped_counterexample :
  (virtual_env_truthy w_absent = true
   /\ passes w_absent Test_venv_is_active = false
   /\ fst (run_test w_absent Test_venv_is_active initial_state)
      = Skipped MSG_SETUP_SKIP)
  /\ (virtual_env_truthy w_bare = false
      /\ fails w_bare Test_venv_is_active = false
      /\ fst (run_test w_bare Test_venv_is_active initial_state)
         = Skipped MSG_SETUP_SKIP).
Proof. repeat split. Qed.

(** C7, amended.  The activation check passes exactly when requirements.txt
    exists and VIRTUAL_ENV is set and non-empty; it fails exactly when
    requirements.txt exists and VIRTUAL_ENV is unset or empty; it is
    skipped exactly when requirements.txt is absent.  None of this depends
    on whether the .venv folder exists. *)
Theorem activation_check_verdict (w : World) :
  passes w Test_venv_is_active
  = isfile w requirements_file && virtual_env_truthy w
  /\ fails w Test_venv_is_active
     = isfile w requirements_file && negb (virtual_env_truthy w)
  /\ is_skipped w Test_venv_is_active = negb (isfile w requirements_file)
  /\ virtual_env_truthy w
     = match getenv w "VIRTUAL_ENV" with
       | None => false
       | Some EmptyString => false
       | Some (String _ _) => true
       end
  /\ forall d s,
       run_test (with_isdir w d) Test_venv_is_active s
       = run_test w Test_venv_is_active s.
Proof.
  split; [apply passes_venv_is_active|].
  split; [|split; [|split]].
  - unfold fails. destruct (isfile w requirements_file) eqn:Hf.
    + rewrite run_test_venv_is_active by assumption.
      now destruct (virtual_env_truthy w).
    + now rewrite run_test_absent.
  - unfold is_skipped. destruct (isfile w requirements_file) eqn:Hf.
    + rewrite run_test_venv_is_active by assumption.
      now destruct (virtual_env_truthy w).
    + now rewrite run_test_absent.
  - unfold virtual_env_truthy.
    now destruct (getenv w "VIRTUAL_ENV") as [[|c v]|].
  - reflexivity.
Qed.

(** ** The dependency check *)

Lemma parse_only_comments_and_blanks (lines : list string) :
  Forall (fun line => blank_line line \/ comment_line line) lines ->
  parse_requirements lines = [].
Proof.
  induction 1 as [|line rest Hline _ IH]; [reflexivity|].
  cbn [parse_requirements]. rewrite IH.
  destruct Hline as [Hb | Hc].
  - now rewrite (strip_blank line Hb).
  - rewrite (strip_comment line Hc). cbn [negb]. now rewrite andb_false_r.
Qed.

(** C8.  When requirements.txt exists, can be read and holds only comment
    lines and blank lines, the requirement list is empty, the loop ends
    with no missing package without touching the state, and the dependency
    check passes: it gains 34, logs its two INFO records, prints nothing
    and requests no subprocess. *)
Theorem only_comments_passes_trivially (w : World) (lines : list string) :
  isfile w requirements_file = true ->
  open_lines w requirements_file = Some lines ->
  Forall (fun line => blank_line line \/ comment_line line) lines ->
  parse_requirements lines = []
  /\ (forall s, query_packages w (parse_requirements lines) [] s = (Ret [], s))
  /\ (forall s,
        run_test w Test_requirements_installed s
        = (Success,
           extend s 34 [(INFO, MSG_REQ_OK);
                        (INFO, progress_message (progress s + 34))] [] []))
  /\ passes w Test_requirements_installed = true.
Proof.
  intros Hf Ho Hl.
  pose proof (parse_only_comments_and_blanks lines Hl) as Hp.
  split; [assumption|]. split; [now rewrite Hp|].
  split.
  - intros s. rewrite run_test_requirements_installed by assumption.
    rewrite Ho. cbv zeta. rewrite Hp. reflexivity.
  - rewrite passes_requirements_installed, Hf, Ho, Hp. reflexivity.
Qed.

Lemma w_comments_lines_ok :
  Forall (fun line => blank_line line \/ comment_line line)
    ["# pinned later" ++ LF; LF; "   # indented comment" ++ LF; "  " ++ LF]%string.
Proof.
  repeat apply Forall_cons; [| | | |apply Forall_nil].
  - right. exists EmptyString, (" pinned later" ++ LF)%string. now split.
  - now left.
  - right. exists "   ", (" indented comment" ++ LF)%string. now split.
  - now left.
Qed.

Lemma only_comments_passes_trivially_witness :
  isfile w_comments requirements_file = true
  /\ parse_requirements
       ["# pinned later" ++ LF; LF; "   # indented comment" ++ LF; "  " ++ LF]%string
     = []
  /\ passes w_comments Test_requirements_installed = true
  /\ spawned (snd (run_test w_comments Test_requirements_installed initial_state)) = [].
Proof.
  split; [reflexivity|].
  pose proof (only_comments_passes_trivially w_comments _ eq_refl eq_refl
                w_comments_lines_ok) as (Hp & _ & Hr & Hpass).
  split; [exact Hp|]. split; [exact Hpass|].
  rewrite Hr. reflexivity.
Defined.

Lemma loop_result_ret (w : World) (required_packages missing_packages : list string) :
  loop_result w required_packages [] = Ret missing_packages ->
  forallb (spawns w) required_packages = true
  /\ missing_packages = filter (reported_missing w) required_packages.
Proof.
  unfold loop_result.
  destruct (forallb (spawns w) required_packages); [|discriminate].
  cbn [app]. intros [= <-]. now split.
Qed.



(** ** Failures are local *)

Lemma main_runs_every_check (w : World) :
  map fst (fst (main w)) = test_names
  /\ fst (main w)
     = map (fun t => (t, fst (run_test w t initial_state))) test_names.
Proof.
  unfold main. rewrite run_suite_outcomes. split; reflexivity.
Qed.

(** C9.  Whenever the script detects a failure of one of the four kinds, in
    each check that detects it the runner records no error (a completed
    test that went through [fail], or a skip for the skipped precondition),
    the check appends at least one ERROR record to the log and leaves the
    counter where it was, from whatever state it starts.  In every run all
    three checks are run, and each one's outcome is the outcome it has when
    run alone. *)
Theorem failures_are_handled_locally (w : World) (k : failure_kind) :
  detects w k = true ->
  Forall (fun t =>
            recorded w k t = true
            /\ forall s,
                 not_errored (fst (run_test w t s)) = true
                 /\ progress (snd (run_test w t s)) = progress s
                 /\ exists records,
                      log (snd (run_test w t s)) = log s ++ records
                      /\ existsb is_error records = true)
         (detecting_checks k)
  /\ map fst (fst (main w)) = test_names
  /\ fst (main w)
     = map (fun t => (t, fst (run_test w t initial_state))) test_names.
Proof.
  intros Hd. split; [|apply main_runs_every_check].
  destruct k; cbn [detects detecting_checks] in *.
  - apply andb_true_iff in Hd as [Hf Hdir]. apply negb_true_iff in Hdir.
    apply Forall_cons; [|apply Forall_nil]. split.
    + cbn [recorded]. unfold fails.
      rewrite run_test_venv_exists by assumption. now rewrite Hdir.
    + intros s. rewrite run_test_venv_exists by assumption. rewrite Hdir.
      cbn [fst snd not_errored extend progress log].
      split; [reflexivity|]. split; [lia|]. eexists. split; reflexivity.
  - apply andb_true_iff in Hd as [Hf Hact]. apply negb_true_iff in Hact.
    apply Forall_cons; [|apply Forall_nil]. split.
    + cbn [recorded]. unfold fails.
      rewrite run_test_venv_is_active by assumption. now rewrite Hact.
    + intros s. rewrite run_test_venv_is_active by assumption. rewrite Hact.
      cbn [fst snd not_errored extend progress log].
      split; [reflexivity|]. split; [lia|]. eexists. split; reflexivity.
  - apply andb_true_iff in Hd as [Hf Hdep].
    destruct (open_lines w requirements_file) as [lines|] eqn:Ho; [|discriminate].
    apply andb_true_iff in Hdep as [Hsp Hmiss].
    apply Forall_cons; [|apply Forall_nil]. split.
    + cbn [recorded]. unfold fails.
      rewrite run_test_requirements_installed by assumption. rewrite Ho.
      cbv zeta. unfold loop_result. rewrite Hsp. cbn [app]. now rewrite Hmiss.
    + intros s. rewrite run_test_requirements_installed by assumption.
      rewrite Ho. cbv zeta. unfold loop_result. rewrite Hsp. cbn [app].
      rewrite Hmiss. cbn [fst snd not_errored extend progress log].
      split; [reflexivity|]. split; [lia|]. eexists. split; [reflexivity|].
      rewrite existsb_app. cbn. now rewrite orb_true_r.
  - apply negb_true_iff in Hd. apply Forall_forall. intros t _. split.
    + cbn [recorded]. now apply verdicts_absent.
    + intros s. rewrite run_test_absent by assumption.
      cbn [fst snd not_errored extend progress log].
      split; [reflexivity|]. split; [lia|]. eexists. split; reflexivity.
Qed.

Lemma failures_are_handled_locally_witness :
  detects w_no_venv MissingResource = true
  /\ fails w_no_venv Test_venv_exists = true
  /\ map fst (fst (main w_no_venv)) = test_names.
Proof.
  split; [reflexivity|].
  pose proof (failures_are_handled_locally w_no_venv MissingResource eq_refl)
    as (Hall & Hnames & _).
  split; [|exact Hnames].
  apply Forall_inv in Hall as [Hrec _]. exact Hrec.
Defined.

(** ** Where the code departs from its own intent *)

(** A query that cannot be spawned ends the loop with [OSError], whatever
    follows in the list and whatever was collected so far. *)
Lemma spawn_failure_raises (w : World) (package : string) (rest missing_packages : list string)
    (s : State) :
  spawns w package = false ->
  fst (query_packages w (package :: rest) missing_packages s) = Raise OSError.
Proof.
  intros H. rewrite query_packages_eval. unfold loop_result.
  cbn [fst forallb]. now rewrite H.
Qed.

(** C1 (the code departs from the claim).  With requirements "requests" and
    "flask" and a package query that cannot be spawned, the loop raises
    [OSError] at "requests": no missing list is produced, "flask" is never
    queried, the check logs and prints nothing, and the runner records the
    dependency check as an error. *)
Theorem spawn_failure_escapes_dependency_check :
  parse_requirements ["requests" ++ LF; "flask" ++ LF]%string = ["requests"; "flask"]
  /\ query_packages w_spawn_fails ["requests"; "flask"] [] initial_state
     = (Raise OSError,
        mkState 0 [] [] [["python3"; "-m"; "pip"; "show"; "requests"]])
  /\ run_test w_spawn_fails Test_requirements_installed initial_state
     = (Errored OSError,
        mkState 0 [] [] [["python3"; "-m"; "pip"; "show"; "requests"]])
  /\ fails w_spawn_fails Test_requirements_installed = false.
Proof. repeat split. Qed.

(** Every line the script prints is a "Test Failed: ..." line, in every
    world; the guide texts begin with a line feed. *)
Lemma printed_lines_are_test_failed (w : World) (t : test_name) :
  forallb is_test_failed (stdout (snd (run_test w t initial_state))) = true.
Proof.
  destruct (isfile w requirements_file) eqn:Hf.
  - destruct t.
    + rewrite run_test_requirements_installed by assumption.
      destruct (open_lines w requirements_file) as [lines|]; [|reflexivity].
      cbv zeta.
      destruct (loop_result w (parse_requirements lines) []) as [m|e];
        [now destruct (list_truthy m) | reflexivity].
    + rewrite run_test_venv_exists by assumption.
      now destruct (isdir w RECOMMENDED_VENV_NAME).
    + rewrite run_test_venv_is_active by assumption.
      now destruct (virtual_env_truthy w).
  - now rewrite run_test_absent.
Qed.

(** C2 (the code departs from the claim).  With requirements.txt present,
    no .venv folder and VIRTUAL_ENV unset, the existence check and the
    activation check both fail; the run prints the two "Test Failed" lines
    and nothing else, and no line on the console contains the "HOW TO FIX"
    heading that both guide texts carry. *)
Theorem guides_are_not_printed :
  fails w_no_venv Test_venv_exists = true
  /\ fails w_no_venv Test_venv_is_active = true
  /\ stdout (snd (main w_no_venv)) = [MSG_VENV_FAIL; MSG_ACTIVE_FAIL]
  /\ log (snd (main w_no_venv))
     = [(INFO, "Required requests is installed.");
        (INFO, MSG_REQ_OK);
        (INFO, "Progress: 34%.");
        (ERROR, MSG_VENV_NOT_FOUND);
        (ERROR, MSG_VENV_FAIL);
        (ERROR, MSG_NOT_ACTIVE);
        (ERROR, MSG_ACTIVE_FAIL)]
  /\ forallb (fun line => negb (occurs_in "HOW TO FIX" line))
             (console (snd (main w_no_venv))) = true
  /\ occurs_in "HOW TO FIX" GUIDE_IF_DOT_VENV_MISSING = true
  /\ occurs_in "HOW TO FIX" GUIDE_IF_INACTIVE = true.
Proof. repeat split. Qed.

(** * Further properties of the code *)

(** ** Verdicts of the existence and dependency checks *)

(** X1.  The existence check passes exactly when requirements.txt and the
    .venv folder both exist, fails exactly when requirements.txt exists and
    the folder does not, is skipped exactly when requirements.txt is
    absent, and never ends in an error; it advances the counter by 33 when
    it passes and not at all otherwise.  Nothing of this depends on the
    environment variables, on the content of requirements.txt or on the
    package query. *)
Theorem existence_check_verdict (w : World) :
  passes w Test_venv_exists
  = isfile w requirements_file && isdir w RECOMMENDED_VENV_NAME
  /\ fails w Test_venv_exists
     = isfile w requirements_file && negb (isdir w RECOMMENDED_VENV_NAME)
  /\ is_skipped w Test_venv_exists = negb (isfile w requirements_file)
  /\ errors w Test_venv_exists = false
  /\ (forall s,
        progress (snd (run_test w Test_venv_exists s))
        = progress s
          + (if isfile w requirements_file && isdir w RECOMMENDED_VENV_NAME
             then 33 else 0))
  /\ forall env content exe run s,
       run_test (with_environment w env content exe run) Test_venv_exists s
       = run_test w Test_venv_exists s.
Proof.
  split; [apply passes_venv_exists|].
  unfold fails, is_skipped, errors.
  destruct (isfile w requirements_file) eqn:Hf.
  - rewrite run_test_venv_exists by assumption.
    repeat split; try (now destruct (isdir w RECOMMENDED_VENV_NAME)).
    intros s. rewrite run_test_venv_exists by assumption.
    destruct (isdir w RECOMMENDED_VENV_NAME); cbn; lia.
  - rewrite run_test_absent by assumption.
    repeat split. intros s. rewrite run_test_absent by assumption. cbn. lia.
Qed.

(** X2.  The dependency check passes exactly when requirements.txt exists,
    can be read and every requirement's query exits with status 0; it
    fails exactly when every query can be spawned and at least one exits
    non-zero; it ends in an error exactly when requirements.txt exists but
    cannot be read or some query cannot be spawned; it is skipped exactly
    when requirements.txt is absent. *)
Theorem dependency_check_verdict (w : World) :
  passes w Test_requirements_installed
  = isfile w requirements_file
    && match open_lines w requirements_file with
       | Some lines => forallb (installed w) (parse_requirements lines)
       | None => false
       end
  /\ fails w Test_requirements_installed
     = isfile w requirements_file
       && match open_lines w requirements_file with
          | Some lines =>
              forallb (spawns w) (parse_requirements lines)
              && negb (forallb (installed w) (parse_requirements lines))
          | None => false
          end
  /\ errors w Test_requirements_installed
     = isfile w requirements_file
       && match open_lines w requirements_file with
          | Some lines => negb (forallb (spawns w) (parse_requirements lines))
          | None => true
          end
  /\ is_skipped w Test_requirements_installed = negb (isfile w requirements_file).
Proof.
  split; [apply passes_requirements_installed|].
  unfold fails, is_skipped, errors.
  destruct (isfile w requirements_file) eqn:Hf.
  - rewrite run_test_requirements_installed by assumption.
    destruct (open_lines w requirements_file) as [lines|]; [|now repeat split].
    cbv zeta. unfold loop_result.
    destruct (forallb (spawns w) (parse_requirements lines)) eqn:Hs.
    + cbn [app]. rewrite none_missing_all_installed by assumption.
      now destruct (forallb (installed w) (parse_requirements lines)).
    + now repeat split.
  - rewrite run_test_absent by assumption. now repeat split.
Qed.

(** ** The counter *)

(** X3.  No check ever lowers the counter, and no check raises it by more
    than 34; a run ends with the counter at 0, 33, 34, 66, 67 or 100, so
    always between 0 and 100. *)
Theorem progress_stays_in_range (w : World) :
  (forall t s,
      progress s <= progress (snd (run_test w t s)) <= progress s + 34)
  /\ existsb (Z.eqb (progress (snd (main w)))) [0; 33; 34; 66; 67; 100] = true
  /\ 0 <= progress (snd (main w)) <= 100.
Proof.
  assert (Hg : forall t, 0 <= gain w t <= 34).
  { intros t. unfold gain. destruct (passes w t), t; cbn; lia. }
  split.
  - intros t s. rewrite run_test_progress. specialize (Hg t). lia.
  - unfold main, test_names. rewrite run_suite_progress. cbn [map fold_right].
    unfold gain.
    destruct (passes w Test_requirements_installed), (passes w Test_venv_exists),
      (passes w Test_venv_is_active); cbn; split; try reflexivity; lia.
Qed.

(** ** The package queries *)

Lemma venv_checks_spawn_nothing (w : World) (t : test_name) (s : State) :
  t <> Test_requirements_installed ->
  spawned (snd (run_test w t s)) = spawned s.
Proof.
  intros Ht. destruct (isfile w requirements_file) eqn:Hf.
  - destruct t; [congruence| |].
    + rewrite run_test_venv_exists by assumption.
      destruct (isdir w RECOMMENDED_VENV_NAME); cbn; now rewrite app_nil_r.
    + rewrite run_test_venv_is_active by assumption.
      destruct (virtual_env_truthy w); cbn; now rewrite app_nil_r.
  - rewrite run_test_absent by assumption. cbn. now rewrite app_nil_r.
Qed.

Lemma queried_prefix (w : World) (required_packages : list string) :
  exists rest, required_packages = queried w required_packages ++ rest.
Proof.
  induction required_packages as [|p l [rest IH]]; [now exists []|].
  cbn [queried]. destruct (spawns w p).
  - exists rest. cbn. now rewrite <- IH.
  - now exists l.
Qed.

(** X4.  When requirements.txt exists and can be read, the subprocesses a
    whole run requests are the [pip show] queries of the dependency check
    and nothing else: one per requirement, in file order, with the stripped
    line passed as it is, up to and including the first query that cannot
    be spawned.  When every query can be spawned there are exactly as many
    launches as requirements. *)
Theorem launches_are_the_package_queries (w : World) (lines : list string) :
  isfile w requirements_file = true ->
  open_lines w requirements_file = Some lines ->
  spawned (snd (main w))
  = map (fun p => [sys_executable w; "-m"; "pip"; "show"; p])
        (queried w (parse_requirements lines))
  /\ (exists rest,
        parse_requirements lines = queried w (parse_requirements lines) ++ rest)
  /\ (forallb (spawns w) (parse_requirements lines) = true ->
      spawned (snd (main w))
      = map (fun p => [sys_executable w; "-m"; "pip"; "show"; p])
            (parse_requirements lines)
      /\ List.length (spawned (snd (main w))) = List.length (parse_requirements lines)).
Proof.
  intros Hf Ho.
  assert (E : spawned (snd (main w))
              = map (pip_show w) (queried w (parse_requirements lines))).
  { unfold main, test_names. rewrite !run_suite_cons. cbn [run_suite snd].
    rewrite !venv_checks_spawn_nothing by discriminate.
    rewrite run_test_requirements_installed by assumption. rewrite Ho. cbv zeta.
    destruct (loop_result w (parse_requirements lines) []) as [m|e];
      [destruct (list_truthy m)|]; reflexivity. }
  split; [exact E|]. split; [apply queried_prefix|].
  intros Hs. rewrite E, queried_all by assumption.
  split; [reflexivity | apply length_map].
Qed.

Lemma launches_are_the_package_queries_witness :
  isfile w_mixed requirements_file = true
  /\ spawned (snd (main w_mixed))
     = [["python3"; "-m"; "pip"; "show"; "requests"];
        ["python3"; "-m"; "pip"; "show"; "flask"]].
Proof.
  split; [reflexivity|].
  pose proof (launches_are_the_package_queries w_mixed
                ["requests" ++ LF; "flask" ++ LF]%string eq_refl eq_refl)
    as (E & _).
  rewrite E. reflexivity.
Defined.

Lemma installed_or_missing_count (w : World) (l : list string) :
  forallb (spawns w) l = true ->
  (List.length (filter (installed w) l) + List.length (filter (reported_missing w) l)
   = List.length l)%nat.
Proof.
  induction l as [|p l IH]; [reflexivity|]. cbn [forallb filter].
  intros [Hp Hl]%andb_true_iff. rewrite (spawns_cases w p Hp).
  specialize (IH Hl). destruct (installed w p); simpl; lia.
Qed.

(** X5.  When the loop over the requirements returns, every requirement is
    accounted for exactly once: the number of packages in the missing list
    plus the number of records the loop logged equals the number of
    requirements.  The loop itself prints nothing and leaves the counter
    alone. *)
Theorem loop_accounts_for_every_requirement (w : World)
    (required_packages missing_packages : list string) (s s1 : State) :
  query_packages w required_packages [] s = (Ret missing_packages, s1) ->
  (List.length missing_packages + List.length (log s1)
   = List.length (log s) + List.length required_packages)%nat
  /\ progress s1 = progress s
  /\ stdout s1 = stdout s.
Proof.
  intros Hq. rewrite query_packages_eval in Hq. injection Hq as Hres <-.
  apply loop_result_ret in Hres as [Hsp ->].
  cbn [log progress stdout]. rewrite queried_all by assumption.
  rewrite length_app, length_map.
  pose proof (installed_or_missing_count w required_packages Hsp).
  repeat split; lia.
Qed.

Lemma loop_accounts_for_every_requirement_witness :
  fst (query_packages w_mixed ["requests"; "flask"] [] initial_state) = Ret ["flask"]
  /\ (List.length ["flask"]
      + List.length
          (log (snd (query_packages w_mixed ["requests"; "flask"] [] initial_state)))
      = List.length (log initial_state) + 2)%nat.
Proof.
  split; [reflexivity|].
  pose proof (loop_accounts_for_every_requirement w_mixed
                ["requests"; "flask"] ["flask"] initial_state
                (snd (query_packages w_mixed ["requests"; "flask"] [] initial_state))
                eq_refl) as (H & _).
  exact H.
Defined.

(** X6.  Checking a list of requirements made of two parts is checking the
    first part and then the second, starting from the missing packages
    collected so far; and the packages collected before the loop stay at
    the front of its result, in order. *)
Theorem query_packages_app (w : World) (l1 l2 missing_packages : list string)
    (s : State) :
  query_packages w (l1 ++ l2) missing_packages s
  = bind (query_packages w l1 missing_packages) (query_packages w l2) s
  /\ fst (query_packages w l1 missing_packages s)
     = match fst (query_packages w l1 [] s) with
       | Ret found => Ret (missing_packages ++ found)
       | Raise e => Raise e
       end.
Proof.
  split.
  - revert missing_packages s.
    induction l1 as [|p l IH]; intros m s.
    + cbn. unfold bind, ret. reflexivity.
    + cbn [app query_packages]. unfold bind.
      destruct (query_package w p m s) as [[m'|e] s']; [apply IH | reflexivity].
  - rewrite !query_packages_eval. cbn [fst]. unfold loop_result.
    now destruct (forallb (spawns w) l1).
Qed.

(** ** Stripping and parsing *)

Lemma rstrip_all_space (s : string) : all_space s = true -> rstrip s = EmptyString.
Proof.
  induction s as [|c t IH]; [reflexivity|]. cbn [all_space].
  intros [Hc Ht]%andb_true_iff. rewrite rstrip_cons, (IH Ht). now rewrite Hc.
Qed.

Lemma rstrip_app_space (s ws : string) :
  all_space ws = true -> rstrip (s ++ ws) = rstrip s.
Proof.
  intros Hws. induction s as [|c t IH].
  - cbn [String.append]. now rewrite rstrip_all_space.
  - cbn [String.append]. now rewrite !rstrip_cons, IH.
Qed.

Lemma lstrip_app (s t : string) :
  lstrip (s ++ t) = if all_space s then lstrip t else (lstrip s ++ t)%string.
Proof.
  induction s as [|c s' IH]; [reflexivity|].
  cbn [String.append lstrip all_space]. destruct (isspace c); [exact IH | reflexivity].
Qed.

Lemma all_space_app (s t : string) :
  all_space (s ++ t) = all_space s && all_space t.
Proof.
  induction s as [|c s' IH]; [reflexivity|].
  cbn [String.append all_space]. now rewrite IH, andb_assoc.
Qed.

Lemma strip_pad (pad_l pad_r s : string) :
  all_space pad_l = true -> all_space pad_r = true ->
  strip (pad_l ++ s ++ pad_r) = strip s.
Proof.
  intros Hl Hr. unfold strip. rewrite lstrip_app, Hl, lstrip_app.
  destruct (all_space s) eqn:Hs.
  - now rewrite (lstrip_all_space pad_r Hr), (lstrip_all_space s Hs).
  - now apply rstrip_app_space.
Qed.

Lemma strip_idempotent (s : string) : strip (strip s) = strip s.
Proof.
  destruct (strip_trimmed s) as [Hl Hr]. unfold strip at 1. now rewrite Hl, Hr.
Qed.

Lemma rstrip_fixed (t : string) :
  match last_char t with
  | None => true
  | Some c => negb (isspace c)
  end = true ->
  rstrip t = t.
Proof.
  induction t as [|c t IH]; [reflexivity|].
  rewrite rstrip_cons. destruct t as [|d t'].
  - cbn. now intros ->%negb_true_iff.
  - intros H. now rewrite (IH H).
Qed.

Lemma strip_fixed (t : string) : no_outer_space t = true -> strip t = t.
Proof.
  unfold no_outer_space. intros [Hfirst Hlast]%andb_true_iff.
  unfold strip. destruct t as [|c t]; [reflexivity|].
  apply negb_true_iff in Hfirst. cbn [lstrip]. rewrite Hfirst.
  now apply rstrip_fixed.
Qed.

Lemma strip_unique (a t b : string) :
  all_space a = true -> all_space b = true -> no_outer_space t = true ->
  strip (a ++ t ++ b) = t.
Proof.
  intros Ha Hb Ht. rewrite strip_pad by assumption. now apply strip_fixed.
Qed.

(** X7.  [strip] removes the white space at both ends and nothing else:
    the string is its stripped form between two runs of white space, and
    the stripped form neither begins nor ends with a white-space
    character; it is the only such string, in that however the string is
    cut into white space, a part without white space at either end, and
    white space, that part is the stripped form.  Stripping twice changes
    nothing, and the stripped form is empty exactly when the string is
    white space only. *)
Theorem strip_removes_surrounding_space_only (s : string) :
  (exists ws1 ws2,
      all_space ws1 = true /\ all_space ws2 = true
      /\ s = (ws1 ++ strip s ++ ws2)%string)
  /\ no_outer_space (strip s) = true
  /\ (forall a t b,
        all_space a = true -> all_space b = true -> no_outer_space t = true ->
        s = (a ++ t ++ b)%string -> strip s = t)
  /\ trimmed (strip s)
  /\ strip (strip s) = strip s
  /\ str_truthy (strip s) = negb (all_space s).
Proof.
  split; [apply strip_decompose|]. split; [apply strip_no_outer_space|].
  split; [intros a t b Ha Hb Ht ->; now apply strip_unique|].
  split; [apply strip_trimmed|].
  split; [apply strip_idempotent|].
  destruct (all_space s) eqn:Hs.
  - now rewrite (strip_blank s Hs).
  - destruct (strip s) eqn:E; [|reflexivity].
    destruct (strip_decompose s) as (ws1 & ws2 & H1 & H2 & Heq).
    rewrite E in Heq. cbn [String.append] in Heq.
    rewrite Heq, all_space_app, H1, H2 in Hs. discriminate.
Qed.

Lemma strip_removes_surrounding_space_only_witness :
  strip ("  requests>=2.0 " ++ String (ascii_of_nat 13) LF) = "requests>=2.0"
  /\ no_outer_space "requests>=2.0" = true
  /\ no_outer_space "  requests>=2.0" = false
  /\ no_outer_space "requests>=2.0  " = false.
Proof.
  split; [|now repeat split].
  destruct (strip_removes_surrounding_space_only
              ("  requests>=2.0 " ++ String (ascii_of_nat 13) LF))
    as (_ & _ & Huniq & _).
  apply (Huniq "  " "requests>=2.0" (" " ++ String (ascii_of_nat 13) LF)%string);
    reflexivity.
Defined.

(** X8.  White space around the lines of requirements.txt does not change
    what is parsed: the same indentation put before every line and the
    same white space (a line terminator, say) put after every line leave
    the requirement list as it was. *)
Theorem parse_requirements_ignores_padding (pad_l pad_r : string)
    (lines : list string) :
  all_space pad_l = true ->
  all_space pad_r = true ->
  parse_requirements (map (fun line => (pad_l ++ line ++ pad_r)%string) lines)
  = parse_requirements lines.
Proof.
  intros Hl Hr. induction lines as [|line rest IH]; [reflexivity|].
  cbn [map parse_requirements]. rewrite (strip_pad pad_l pad_r line Hl Hr).
  now rewrite IH.
Qed.

Lemma parse_requirements_ignores_padding_witness :
  parse_requirements
    (map (fun line => ("  " ++ line ++ String (ascii_of_nat 13) LF)%string)
         ["requests"; "# comment"; ""; "flask"])
  = ["requests"; "flask"].
Proof.
  rewrite (parse_requirements_ignores_padding
             "  " (String (ascii_of_nat 13) LF)
             ["requests"; "# comment"; ""; "flask"] eq_refl eq_refl).
  reflexivity.
Defined.

Lemma parse_requirements_fixed (l : list string) :
  Forall (fun p => strip p = p /\ is_requirement p = true) l ->
  parse_requirements l = l.
Proof.
  induction 1 as [|p l [Hs Hr] _ IH]; [reflexivity|].
  cbn [parse_requirements]. rewrite Hs. unfold is_requirement in Hr.
  now rewrite Hr, IH.
Qed.

(** X9.  Parsing works line by line: the requirements of two lists of lines
    put together are the requirements of the first followed by those of
    the second; there are never more requirements than lines; and parsing
    a requirement list again gives it back unchanged. *)
Theorem parse_requirements_line_by_line (l1 l2 : list string) :
  parse_requirements (l1 ++ l2) = parse_requirements l1 ++ parse_requirements l2
  /\ (List.length (parse_requirements l1) <= List.length l1)%nat
  /\ parse_requirements (parse_requirements l1) = parse_requirements l1.
Proof.
  split; [|split].
  - rewrite !parse_requirements_filter, map_app. apply filter_app.
  - rewrite parse_requirements_filter.
    rewrite <- (length_map strip l1). apply filter_length_le.
  - apply parse_requirements_fixed. rewrite parse_requirements_filter.
    apply Forall_forall. intros p [Hin Hreq]%filter_In.
    apply in_map_iff in Hin as [line [<- _]].
    split; [apply strip_idempotent | assumption].
Qed.

(** ** What a run writes *)

(** Case analysis on what a check reads, after symbolic evaluation. *)
Ltac check_cases w t :=
  let Hf := fresh "Hf" in
  let lines := fresh "lines" in
  let m := fresh "m" in
  let e := fresh "e" in
  destruct (isfile w requirements_file) eqn:Hf;
  [ destruct t;
    [ rewrite ?run_test_requirements_installed by assumption;
      destruct (open_lines w requirements_file) as [lines|];
      [ cbv zeta;
        destruct (loop_result w (parse_requirements lines) []) as [m|e];
        [ destruct (list_truthy m) | destruct e ]
      | ]
    | rewrite ?run_test_venv_exists by assumption;
      destruct (isdir w RECOMMENDED_VENV_NAME)
    | rewrite ?run_test_venv_is_active by assumption;
      destruct (virtual_env_truthy w) ]
  | rewrite ?run_test_absent by assumption ].

Lemma run_suite_invariant (w : World) (P : State -> Prop) :
  (forall t s, P s -> P (snd (run_test w t s))) ->
  forall ts s, P s -> P (snd (run_suite w ts s)).
Proof.
  intros Hstep ts. induction ts as [|t ts IH]; intros s Hs; [exact Hs|].
  rewrite run_suite_cons. cbn [snd]. apply IH, Hstep, Hs.
Qed.

Lemma prefix_nil (s : string) : String.prefix EmptyString s = true.
Proof. now destruct s. Qed.

Lemma progress_message_shape (p : Z) :
  is_progress (progress_message p) = true
  /\ is_test_failed (progress_message p) = false
  /\ String.eqb (progress_message p) MSG_METHOD_SKIP = false.
Proof.
  unfold progress_message, is_progress, is_test_failed, startswith.
  destruct (p =? 33), (p =? 66), (p =? 100); cbn; rewrite ?prefix_nil;
    now repeat split.
Qed.

Lemma found_records_shape (l : list string) :
  filter (fun r => is_test_failed (snd r)) (map installed_record l) = []
  /\ filter is_progress (map snd (map installed_record l)) = []
  /\ existsb (fun r => String.eqb (snd r) MSG_METHOD_SKIP) (map installed_record l)
     = false
  /\ test_failed_at_error (map installed_record l) = true.
Proof.
  induction l as [|p l (H1 & H2 & H3 & H4)]; [now repeat split|].
  cbn [map]. repeat split.
  - cbn. exact H1.
  - cbn. exact H2.
  - cbn. exact H3.
  - cbn. exact H4.
Qed.

Lemma run_test_writes (w : World) (t : test_name) (s : State) :
  exists records lines,
    log (snd (run_test w t s)) = log s ++ records
    /\ stdout (snd (run_test w t s)) = stdout s ++ lines
    /\ map snd (filter (fun r => is_test_failed (snd r)) records) = lines
    /\ test_failed_at_error records = true
    /\ existsb (fun r => String.eqb (snd r) MSG_METHOD_SKIP) records = false.
Proof.
  check_cases w t; cbn [snd extend log stdout];
    try (eexists; eexists; split; [reflexivity|]; split; [reflexivity|];
         unfold test_failed_at_error;
         rewrite ?filter_app, ?map_app, ?forallb_app, ?existsb_app;
         try match goal with
           | |- context [map installed_record ?l] =>
               destruct (found_records_shape l) as (-> & _ & -> & Hlvl);
               unfold test_failed_at_error in Hlvl; rewrite Hlvl
           end;
         cbn;
         rewrite ?(proj1 (proj2 (progress_message_shape _))),
                 ?(proj2 (proj2 (progress_message_shape _)));
         now repeat split).
  - exists [], []. rewrite !app_nil_r. now repeat split.
Qed.

(** X10.  In every run the printed lines are exactly the "Test Failed"
    messages of the log, in the same order, and each of those messages was
    logged at ERROR level: the log holds everything that was printed. *)
Theorem printed_lines_are_in_the_log (w : World) :
  stdout (snd (main w)) = test_failed_records (snd (main w))
  /\ test_failed_at_error (log (snd (main w))) = true.
Proof.
  unfold main.
  apply (run_suite_invariant w
           (fun s => stdout s = test_failed_records s
                     /\ test_failed_at_error (log s) = true));
    [|now split].
  intros t s [Hout Hlvl].
  destruct (run_test_writes w t s) as (records & lines & Hlog & Hprint & Hl & Hr & _).
  unfold test_failed_records, test_failed_at_error in *.
  rewrite Hlog, Hprint, filter_app, map_app, forallb_app, Hlvl, Hr, Hl, Hout.
  now split.
Qed.

(** X11.  In a run during which the file system does not change, the guard
    inside the dependency check never fires: its message is never logged,
    because [setUp] has already skipped the test when requirements.txt is
    absent. *)
Theorem method_guard_never_fires (w : World) :
  logged MSG_METHOD_SKIP (snd (main w)) = false.
Proof.
  unfold main, logged.
  apply (run_suite_invariant w
           (fun s => existsb (fun r => String.eqb (snd r) MSG_METHOD_SKIP) (log s)
                     = false));
    [|reflexivity].
  intros t s Hs.
  destruct (run_test_writes w t s) as (records & lines & Hlog & _ & _ & _ & Hr).
  now rewrite Hlog, existsb_app, Hs, Hr.
Qed.

(** ** The progress lines *)

Lemma run_test_progress_lines (w : World) (t : test_name) (s : State) :
  progress_lines (snd (run_test w t s))
  = progress_lines s ++ progress_line_of w t (progress s).
Proof.
  unfold progress_lines, progress_line_of, passes.
  check_cases w t; cbn [snd extend log stdout existsb negb weight];
    rewrite ?map_app, ?filter_app;
    try match goal with
      | |- context [map installed_record ?l] =>
          destruct (found_records_shape l) as (_ & -> & _ & _)
      end;
    cbn;
    rewrite ?(proj1 (progress_message_shape _)), ?app_nil_r;
    reflexivity.
Qed.

(** X12.  From any state, a check that passes logs exactly one progress
    line, the one for the new value of the counter, and a check that does
    not pass logs none. *)
Theorem each_passing_check_logs_one_progress_line (w : World) (t : test_name)
    (s : State) :
  progress_lines (snd (run_test w t s))
  = progress_lines s
    ++ (if passes w t then [progress_message (progress s + weight t)] else []).
Proof.
  unfold progress_lines, passes.
  check_cases w t; cbn [snd extend log stdout existsb negb weight];
    rewrite ?map_app, ?filter_app;
    try match goal with
      | |- context [map installed_record ?l] =>
          destruct (found_records_shape l) as (_ & -> & _ & _)
      end;
    cbn;
    rewrite ?(proj1 (progress_message_shape _)), ?app_nil_r;
    reflexivity.
Qed.

(** X13.  The progress lines of a whole run, for each combination of
    verdicts.  Because the dependency check runs first, a run in which it
    passes shows "34%", "67%" and, when all pass, the "100% completed"
    line; the "1/3 done" and "2/3 done" lines only show when the
    dependency check does not pass. *)
Theorem progress_lines_of_a_run (w : World) :
  progress_lines (snd (main w))
  = match passes w Test_requirements_installed, passes w Test_venv_exists,
          passes w Test_venv_is_active with
    | true, true, true =>
        ["Progress: 34%."; "Progress: 67%.";
         "Progress: 100% - 100% completed - all checks passed. Nice work!"]
    | true, true, false | true, false, true =>
        ["Progress: 34%."; "Progress: 67%."]
    | true, false, false => ["Progress: 34%."]
    | false, true, true =>
        ["Progress: 33% - You're 1/3 done - good start!";
         "Progress: 66% - You're 2/3 done - almost there!"]
    | false, true, false | false, false, true =>
        ["Progress: 33% - You're 1/3 done - good start!"]
    | false, false, false => []
    end.
Proof.
  unfold main, test_names. rewrite !run_suite_cons. cbn [run_suite snd].
  rewrite !run_test_progress_lines, !run_test_progress.
  unfold progress_line_of, gain.
  destruct (passes w Test_requirements_installed), (passes w Test_venv_exists),
    (passes w Test_venv_is_active); reflexivity.
Qed.

(** ** The exit status *)

Lemma errors_venv_checks (w : World) :
  errors w Test_venv_exists = false /\ errors w Test_venv_is_active = false.
Proof.
  unfold errors. destruct (isfile w requirements_file) eqn:Hf.
  - rewrite run_test_venv_exists, run_test_venv_is_active by assumption.
    now destruct (isdir w RECOMMENDED_VENV_NAME), (virtual_env_truthy w).
  - now rewrite !run_test_absent.
Qed.

Lemma errors_requirements_installed (w : World) :
  errors w Test_requirements_installed
  = isfile w requirements_file
    && match open_lines w requirements_file with
       | Some lines => negb (forallb (spawns w) (parse_requirements lines))
       | None => true
       end.
Proof.
  unfold errors. destruct (isfile w requirements_file) eqn:Hf.
  - rewrite run_test_requirements_installed by assumption.
    destruct (open_lines w requirements_file) as [lines|]; [|reflexivity].
    cbv zeta. unfold loop_result.
    destruct (forallb (spawns w) (parse_requirements lines)); [|reflexivity].
    cbn [app]. now destruct (list_truthy _).
  - now rewrite run_test_absent.
Qed.

(** X14.  Run without arguments, the script exits with status 1 when the
    log file venv_checker.log cannot be opened at start-up, and then no
    check is run.  When the log file can be opened, all three checks are
    run and the script exits with status 1 exactly when the dependency
    check ends in an error, that is when requirements.txt exists and
    either cannot be read or has a requirement whose query cannot be
    spawned, and with status 0 otherwise: a missing folder, an inactive
    environment, missing packages and a missing requirements.txt all leave
    the status at 0. *)
Theorem exit_status_only_reflects_errors (log_file_opens : bool) (w : World) :
  exit_status log_file_opens w
  = (if log_file_opens
     then (if errors w Test_requirements_installed then 1 else 0)
     else 1)
  /\ exit_status log_file_opens w
     = (if negb log_file_opens
           || (isfile w requirements_file
               && match open_lines w requirements_file with
                  | Some lines =>
                      negb (forallb (spawns w) (parse_requirements lines))
                  | None => true
                  end)
        then 1 else 0)
  /\ fst (run_script false w) = None
  /\ fst (run_script true w) = Some (main w)
  /\ errors w Test_venv_exists = false
  /\ errors w Test_venv_is_active = false.
Proof.
  destruct (errors_venv_checks w) as [Hex Hact].
  assert (E : exit_status true w
              = (if errors w Test_requirements_installed then 1 else 0)).
  { unfold exit_status, run_script, main. cbn [snd]. rewrite run_suite_outcomes.
    unfold errors in *. cbn [test_names map wasSuccessful forallb snd].
    destruct (fst (run_test w Test_requirements_installed initial_state)) eqn:E1;
      destruct (run_test w Test_requirements_installed initial_state) as [o1 s1];
      cbn [fst] in E1; subst o1;
      destruct (run_test w Test_venv_exists initial_state) as [[|r2|e2] s2];
      destruct (run_test w Test_venv_is_active initial_state) as [[|r3|e3] s3];
      cbn; congruence. }
  destruct log_file_opens.
  - split; [exact E|]. split; [|now repeat split].
    rewrite E, errors_requirements_installed. reflexivity.
  - now repeat split.
Qed.

(** ** The order of the checks *)

Lemma sum_permutation (l l' : list Z) :
  Permutation l l' -> fold_right Z.add 0 l = fold_right Z.add 0 l'.
Proof.
  induction 1 as [|x l l' _ IH|x y l|l l' l'' _ IH1 _ IH2]; cbn; lia.
Qed.

(** X15.  The result of a run does not depend on the order in which the
    runner takes the three checks: in any order the counter ends at the
    same value and each check is recorded with the same outcome. *)
Theorem order_of_checks_is_irrelevant (w : World) (ts : list test_name) :
  Permutation ts test_names ->
  progress (snd (run_suite w ts initial_state)) = progress (snd (main w))
  /\ Permutation (fst (run_suite w ts initial_state)) (fst (main w)).
Proof.
  intros Hp. unfold main. rewrite !run_suite_progress, !run_suite_outcomes.
  split.
  - f_equal. apply sum_permutation. now apply Permutation_map.
  - now apply Permutation_map.
Qed.

Lemma order_of_checks_is_irrelevant_witness :
  progress (snd (run_suite w_mixed
                   [Test_venv_exists; Test_venv_is_active; Test_requirements_installed]
                   initial_state))
  = progress (snd (main w_mixed)).
Proof.
  apply (order_of_checks_is_irrelevant w_mixed
           [Test_venv_exists; Test_venv_is_active; Test_requirements_installed]).
  apply Permutation_sym.
  exact (Permutation_cons_append
           [Test_venv_exists; Test_venv_is_active] Test_requirements_installed).
Defined.
